(** * StockScorePro: scoring tickers against their 50-day moving average

    A shallow embedding of [stockscorepro.py] and the properties its
    design document states about it.

    Numbers are IEEE binary64 values, as Python's [float] and numpy's
    [float64] are: the kernel's primitive floats, with the comparison
    and arithmetic of the format (a comparison with NaN is false, a
    division by zero gives an infinity or NaN and does not raise, as
    numpy scalars behave).  Python's [int] constants [0] and [1] that
    meet floats are written as the floats [0] and [1].

    The functions of the program log through [logging.error] and two of
    them can raise; a computation therefore yields a result or an
    exception together with the log entries it wrote. *)

From Stdlib Require Import ZArith String Bool Lia Floats List.
From Stdlib Require Import Permutation Sorted.
Import ListNotations.

Set Warnings "-inexact-float".
Set Implicit Arguments.

Local Open Scope float_scope.

(** ** Python builtins *)

Module Py.

(** [max(a, b)]: the first argument unless the second is greater. *)
Definition max (a b : float) : float := if a <? b then b else a.

(** [min(a, b)]: the first argument unless the second is smaller. *)
Definition min (a b : float) : float := if b <? a then b else a.

(** [math.isnan] and [math.isinf]. *)
Definition isnan (x : float) : bool := is_nan x.
Definition isinf (x : float) : bool := is_infinity x.

(** Truth value of [d.get(key)] for a string-valued key: [None] and the
    empty string are false. *)
Definition truthy (s : option string) : bool :=
  match s with
  | Some EmptyString => false
  | Some _ => true
  | None => false
  end.

(** [a or b] where [a] is [d.get(key)] and [b] a string. *)
Definition or_else (a : option string) (b : string) : string :=
  match a with
  | Some s => if truthy a then s else b
  | None => b
  end.

(** [x is None or y is None or x <= 0 or y <= 0]. *)
Definition none_or_nonpositive (x y : option float) : bool :=
  match x, y with
  | None, _ => true
  | _, None => true
  | Some a, Some b => (a <=? 0) || (b <=? 0)
  end.

End Py.

(** ** Exceptions, log entries and the monad of the program *)

Inductive exn : Type :=
| ProviderError (msg : string)   (* whatever yfinance raises *)
| ValueError (msg : string)
| KeyError (key : string)
| IndexError.

Inductive result (A : Type) : Type :=
| Ok (a : A)
| Raise (e : exn).
Arguments Ok {A} a.
Arguments Raise {A} e.

(** One constructor per [logging.error] call of the source. *)
Inductive log_entry : Type :=
| LogBadPrices (ticker : string) (cp ma50 : option float)
| LogFlatness (ticker : string) (flatness : float)
| LogProximity (ticker : string) (proximity : float)
| LogBonus (ticker : string) (bonus : float)
| LogScore (ticker : string) (score : float)
| LogFetchError (ticker : string) (e : exn)
| LogBadTotal (total_score : float).

Definition M (A : Type) : Type := (result A * list log_entry)%type.

Definition ret {A} (a : A) : M A := (Ok a, []).

Definition raise {A} (e : exn) : M A := (Raise e, []).

Definition bind {A B} (m : M A) (f : A -> M B) : M B :=
  match m with
  | (Ok a, l) => let (r, l') := f a in (r, l ++ l')
  | (Raise e, l) => (Raise e, l)
  end.

Definition logging_error (entry : log_entry) : M unit := (Ok tt, [entry]).

(** A library call that returns or raises and does not log. *)
Definition lift {A} (r : result A) : M A := (r, []).

(** A call that logs and cannot raise. *)
Definition writer {A} (w : A * list log_entry) : M A := (Ok (fst w), snd w).

(** [try: body except Exception as e: handler e]. *)
Definition try_except {A} (body : M A) (handler : exn -> M A) : M A :=
  match body with
  | (Ok a, l) => (Ok a, l)
  | (Raise e, l) => let (r, l') := handler e in (r, l ++ l')
  end.

Notation "x <- m ;; k" := (bind m (fun x => k))
  (at level 61, m at next level, right associativity).
Notation "m ;;; k" := (bind m (fun _ => k))
  (at level 61, right associativity).

(** ** The data model *)

(** The dictionary a scoring run produces: nine keys, always all present. *)
Record ScoreResult : Type := {
  Ticker : string;
  Company : string;
  CurrentPrice : option float;
  MA50 : option float;
  DistancePct : float;
  Flatness : float;
  Proximity : float;
  Bonus : float;
  Score : float
}.

Definition set_Score (r : ScoreResult) (v : float) : ScoreResult :=
  {| Ticker := Ticker r; Company := Company r;
     CurrentPrice := CurrentPrice r; MA50 := MA50 r;
     DistancePct := DistancePct r; Flatness := Flatness r;
     Proximity := Proximity r; Bonus := Bonus r; Score := v |}.

Definition set_Flatness (r : ScoreResult) (v : float) : ScoreResult :=
  {| Ticker := Ticker r; Company := Company r;
     CurrentPrice := CurrentPrice r; MA50 := MA50 r;
     DistancePct := DistancePct r; Flatness := v;
     Proximity := Proximity r; Bonus := Bonus r; Score := Score r |}.

Definition set_Proximity (r : ScoreResult) (v : float) : ScoreResult :=
  {| Ticker := Ticker r; Company := Company r;
     CurrentPrice := CurrentPrice r; MA50 := MA50 r;
     DistancePct := DistancePct r; Flatness := Flatness r;
     Proximity := v; Bonus := Bonus r; Score := Score r |}.

Definition set_Bonus (r : ScoreResult) (v : float) : ScoreResult :=
  {| Ticker := Ticker r; Company := Company r;
     CurrentPrice := CurrentPrice r; MA50 := MA50 r;
     DistancePct := DistancePct r; Flatness := Flatness r;
     Proximity := Proximity r; Bonus := v; Score := Score r |}.

(** A row of [allocate_investment]'s output: the record with the two
    columns the allocator adds (the second is the design document's
    AllocationAmount). *)
Record AllocationRecord : Type := {
  Source : ScoreResult;
  AllocationPct : float;
  AllocationPLN : float
}.

(** ** [validate_result] *)

(** The dictionary is updated in place by five checks in sequence; each
    check reads the dictionary as the previous ones left it. *)
Definition validate_result (result : ScoreResult)
  : ScoreResult * list log_entry :=
  let ticker := Ticker result in
  let cp := CurrentPrice result in
  let ma50 := MA50 result in
  let '(result, log1) :=
    if Py.none_or_nonpositive cp ma50
    then (set_Score result 0, [LogBadPrices ticker cp ma50])
    else (result, []) in
  let flatness := Flatness result in
  let '(result, log2) :=
    if (flatness <? 0) || (1 <? flatness)
    then (set_Flatness result (Py.max 0 (Py.min flatness 1)),
          [LogFlatness ticker flatness])
    else (result, []) in
  let proximity := Proximity result in
  let '(result, log3) :=
    if (proximity <? 0) || (1 <? proximity)
    then (set_Proximity result (Py.max 0 (Py.min proximity 1)),
          [LogProximity ticker proximity])
    else (result, []) in
  let bonus := Bonus result in
  let '(result, log4) :=
    if bonus <? 1
    then (set_Bonus result 1, [LogBonus ticker bonus])
    else (result, []) in
  let score := Score result in
  let '(result, log5) :=
    if Py.isnan score || Py.isinf score
    then (set_Score result 0, [LogScore ticker score])
    else (result, []) in
  (result, log1 ++ log2 ++ log3 ++ log4 ++ log5).

(** The value the second and third checks leave in [Flatness] and in
    [Proximity]. *)
Definition clamped (x : float) : float :=
  if (x <? 0) || (1 <? x) then Py.max 0 (Py.min x 1) else x.

(** The value the fourth check leaves in [Bonus]. *)
Definition raised_to_one (x : float) : float := if x <? 1 then 1 else x.

(** The value the first and fifth checks leave in [Score]. *)
Definition checked_score (cp ma50 : option float) (score : float) : float :=
  let score := if Py.none_or_nonpositive cp ma50 then 0 else score in
  if Py.isnan score || Py.isinf score then 0 else score.

(** ** The pandas operations the scorer uses *)

(** One row of the price history: the index (a date, as a day number)
    and the closing price.  The other columns are never read. *)
Record row : Type := { Date : Z; Close : float }.

Module Pd.

(** [DataFrame.sort_index()]: ascending by date, rows of equal date
    kept in their order. *)
Fixpoint insert_row (r : row) (sorted : list row) : list row :=
  match sorted with
  | [] => [r]
  | r' :: rest =>
      if (Date r <? Date r')%Z then r :: sorted
      else r' :: insert_row r rest
  end.

Definition sort_index (data : list row) : list row :=
  fold_left (fun sorted r => insert_row r sorted) data [].

Definition float_of_nat (n : nat) : float :=
  of_uint63 (Uint63.of_Z (Z.of_nat n)).

(** The mean of one full window.  pandas updates the window sum
    incrementally; the sum is taken here from left to right, which
    gives the same value whenever the partial sums are exact.  No
    statement below depends on how the mean is rounded. *)
Definition mean (xs : list float) : float :=
  fold_left add xs 0 / float_of_nat (length xs).

(** [Series.rolling(window).mean()]: NaN until [window] values have
    been seen, then the mean of the last [window] values (NaN when one
    of them is NaN). *)
Definition rolling_mean (window : nat) (xs : list float) : list float :=
  map (fun i =>
         if (S i <? window)%nat then nan
         else mean (firstn window (skipn (S i - window) xs)))
      (seq 0 (length xs)).

(** [Series.dropna()]. *)
Definition dropna (xs : list float) : list float :=
  filter (fun x => negb (is_nan x)) xs.

(** [Series.iloc[-k]] for [k >= 1]: the [k]-th value from the end. *)
Definition iloc_neg {A} (xs : list A) (k : nat) : result A :=
  if (k =? 0)%nat || (length xs <? k)%nat then Raise IndexError
  else match nth_error xs (length xs - k) with
       | Some x => Ok x
       | None => Raise IndexError
       end.

End Pd.

(** ** The market-data provider *)

(** What [yfinance] answers for one ticker: the [info] dictionary (its
    two name keys) and [history(period="70d")], either of which can
    raise; the construction [yf.Ticker(ticker)] can raise too. *)
Record TickerInfo : Type := {
  longName : option string;
  shortName : option string
}.

Record TickerObj : Type := {
  info : result TickerInfo;
  history : result (list row)
}.

(** ** [fetch_stock_data] *)

Definition threshold : float := 0.05.
Definition sigma : float := 0.03.
Definition gamma : float := 1.0.

(** Lines 91-96: the relative change of the moving average between its
    latest value and [ma50_series.iloc[-5]]. *)
Definition slope_of (ma50_series : list float) (ma50_latest : float)
  : M float :=
  if (5 <=? length ma50_series)%nat then
    ma50_5days_ago <- lift (Pd.iloc_neg ma50_series 5) ;;
    ret ((ma50_latest - ma50_5days_ago) / ma50_5days_ago)
  else ret 0.

(** Line 98. *)
Definition flatness_of (slope : float) : float :=
  Py.max 0 (1 - abs slope / threshold).

(** Line 101. *)
Definition distance (current_price ma50_latest : float) : float :=
  (current_price - ma50_latest) / ma50_latest.

(** Line 109. *)
Definition bonus_of (d : float) : float :=
  if d <? 0 then 1 + gamma * (- d) else 1.

(** Lines 128-138: the dictionary returned when the [try] block raised. *)
Definition fallback (ticker : string) : ScoreResult :=
  {| Ticker := ticker; Company := ticker;
     CurrentPrice := None; MA50 := None;
     DistancePct := 0; Flatness := 0; Proximity := 0;
     Bonus := 0; Score := 0 |}.

Section Scorer.

(** [math.exp] and [yf.Ticker] are the two library functions the scorer
    calls whose results the program does not determine. *)
Variable math_exp : float -> float.
Variable yf_Ticker : string -> result TickerObj.

(** Line 105: [d ** 2] and [sigma ** 2] are taken as products. *)
Definition proximity_of (d : float) : float :=
  math_exp (- (d * d) / (2 * (sigma * sigma))).

(** Lines 98-124: the metrics and the dictionary assembled from them. *)
Definition assemble (ticker company_name : string)
    (current_price ma50_latest slope : float) : ScoreResult :=
  let flatness := flatness_of slope in
  let d := distance current_price ma50_latest in
  let proximity := proximity_of d in
  let bonus := bonus_of d in
  let score := flatness * proximity * bonus in
  {| Ticker := ticker; Company := company_name;
     CurrentPrice := Some current_price; MA50 := Some ma50_latest;
     DistancePct := d; Flatness := flatness; Proximity := proximity;
     Bonus := bonus; Score := score |}.

(** Line 71: [info.get("longName") or info.get("shortName") or ticker]. *)
Definition company_name_of (i : TickerInfo) (ticker : string) : string :=
  Py.or_else (longName i) (Py.or_else (shortName i) ticker).

(** Lines 68-125: the body of the [try] block. *)
Definition fetch_stock_data_try (ticker : string) : M ScoreResult :=
  ticker_obj <- lift (yf_Ticker ticker) ;;
  i <- lift (info ticker_obj) ;;
  let company_name := company_name_of i ticker in
  data <- lift (history ticker_obj) ;;
  if (length data =? 0)%nat || (length data <? 50)%nat then
    raise (ValueError ("Za mało danych dla " ++ ticker)%string)
  else
    let data := Pd.sort_index data in
    let close := map Close data in
    let ma50_series := Pd.dropna (Pd.rolling_mean 50 close) in
    if (length ma50_series =? 0)%nat then
      raise (ValueError ("Brak obliczonej MA50 dla " ++ ticker)%string)
    else
      current_price <- lift (Pd.iloc_neg close 1) ;;
      ma50_latest <- lift (Pd.iloc_neg ma50_series 1) ;;
      slope <- slope_of ma50_series ma50_latest ;;
      writer (validate_result
                (assemble ticker company_name current_price
                          ma50_latest slope)).

(** Lines 126-138: the handler logs the exception and returns the
    fallback dictionary as it is. *)
Definition fetch_stock_data_except (ticker : string) (e : exn)
  : M ScoreResult :=
  logging_error (LogFetchError ticker e) ;;;
  ret (fallback ticker).

Definition fetch_stock_data (ticker : string) : M ScoreResult :=
  try_except (fetch_stock_data_try ticker)
             (fetch_stock_data_except ticker).

End Scorer.

(** ** [allocate_investment] *)

Module Np.

Definition two52 : float := 0x1p52.

(** [numpy.rint]: the nearest integer, ties to even.  Below [2^52] in
    magnitude, adding and subtracting [2^52] rounds to an integer; from
    there on every value is an integer already. *)
Definition rint (x : float) : float :=
  if abs x <? two52 then
    let r := (abs x + two52) - two52 in
    if get_sign x then - r else r
  else x.

(** [numpy.round(x, 2)], which [Series.round(2)] calls: scale by
    [10^2], round to an integer, scale back. *)
Definition round2 (x : float) : float := rint (x * 100) / 100.

(** [Series.sum()] of a column without NaN, from left to right. *)
Definition sum (xs : list float) : float := fold_left add xs 0.

End Np.

Module DataFrame.

(** [pd.DataFrame(data)] for a list of dictionaries: the columns are
    the keys met in the dictionaries, so an empty list gives a frame
    without columns. *)
Record t : Type := { columns : list string; rows : list ScoreResult }.

Definition keys : list string :=
  ["Ticker"; "Company"; "CurrentPrice"; "MA50"; "DistancePct";
   "Flatness"; "Proximity"; "Bonus"; "Score"]%string.

Definition of_records (data : list ScoreResult) : t :=
  {| columns := match data with [] => [] | _ :: _ => keys end;
     rows := data |}.

(** [df['Score']]: [KeyError] when the frame has no such column. *)
Definition Score_column (df : t) : result (list float) :=
  if existsb (String.eqb "Score") (columns df)
  then Ok (map Score (rows df))
  else Raise (KeyError "Score").

End DataFrame.

(** Lines 162-163: the new columns of one row. *)
Definition allocation_row (total_score monthly_capital : float)
    (r : ScoreResult) : AllocationRecord :=
  let pct := Score r / total_score in
  {| Source := r;
     AllocationPct := pct;
     AllocationPLN := Np.round2 (pct * monthly_capital) |}.

Definition allocate_investment (data : list ScoreResult)
    (monthly_capital : float) : M (list AllocationRecord) :=
  let df := DataFrame.of_records data in
  score <- lift (DataFrame.Score_column df) ;;
  let df := filter (fun r => 0 <? Score r) (DataFrame.rows df) in
  if (length df =? 0)%nat then ret []
  else
    let total_score := Np.sum (map Score df) in
    if total_score <=? 0 then
      logging_error (LogBadTotal total_score) ;;;
      ret []
    else
      ret (map (allocation_row total_score monthly_capital) df).

(** ** Signs of binary64 values

    Three readings of a value of the format, used to follow signs
    through the arithmetic: a value that is not NaN and carries the
    sign [s]; a value that is NaN or carries the sign [s]; a value
    greater than zero. *)

Definition SFsigned (s : bool) (x : spec_float) : Prop :=
  match x with
  | S754_nan => False
  | S754_zero s' | S754_infinity s' | S754_finite s' _ _ => s' = s
  end.

Definition SFnan_or_sign (s : bool) (x : spec_float) : Prop :=
  match x with
  | S754_nan => True
  | S754_zero s' | S754_infinity s' | S754_finite s' _ _ => s' = s
  end.

Definition SFpositive (x : spec_float) : Prop :=
  match x with
  | S754_infinity false | S754_finite false _ _ => True
  | _ => False
  end.

(** ** Sample data *)

(** A stand-in for [math.exp] to run the scorer on concrete data: 1 up
    to zero and 2 above.  It has the three properties of [exp] that the
    statements about [Proximity] assume. *)
Definition exp_step (x : float) : float := if 0 <? x then 2 else 1.

(** 55 closes at 100. *)
Definition flat_closes : list float := repeat 100 55.

(** 50 closes at 100, then 5 at 150: the moving average takes the six
    values 100, 101, 102, 103, 104, 105. *)
Definition rising_closes : list float := repeat 100 50 ++ repeat 150 5.

Definition rows_of (closes : list float) : list row :=
  map (fun ic => {| Date := Z.of_nat (fst ic); Close := snd ic |})
      (combine (seq 0 (length closes)) closes).

Definition unnamed : TickerInfo := {| longName := None; shortName := None |}.

(** A provider that answers every ticker with the given history and no
    company name. *)
Definition yf_history (closes : list float) (ticker : string)
  : result TickerObj :=
  Ok {| info := Ok unnamed; history := Ok (rows_of closes) |}.


(** A provider whose history request raises. *)
Definition yf_history_down (ticker : string) : result TickerObj :=
  Ok {| info := Ok unnamed; history := Raise (ProviderError "history") |}.

(** A well-formed record with the given score. *)
Definition scored (ticker : string) (score : float) : ScoreResult :=
  {| Ticker := ticker; Company := ticker;
     CurrentPrice := Some 100; MA50 := Some 100;
     DistancePct := 0; Flatness := 1; Proximity := 1;
     Bonus := 1; Score := score |}.

(** A record whose current price is negative. *)
Definition negative_price : ScoreResult :=
  {| Ticker := "KDP"; Company := "Keurig Dr Pepper";
     CurrentPrice := Some (-5); MA50 := Some 100;
     DistancePct := -1.05; Flatness := 1; Proximity := 0;
     Bonus := 2.05; Score := 0.7 |}.


(** A record whose [Proximity] is NaN, as the scorer assembles when the
    moving average is 0. *)
Definition nan_proximity : ScoreResult :=
  {| Ticker := "KDP"; Company := "Keurig Dr Pepper";
     CurrentPrice := Some 0; MA50 := Some 0;
     DistancePct := nan; Flatness := nan; Proximity := nan;
     Bonus := nan; Score := nan |}.

(** A value of the format that is not below zero: NaN, a zero of either
    sign, or a value with the plus sign. *)
Definition SFnot_negative (x : spec_float) : Prop :=
  match x with
  | S754_nan | S754_zero _ => True
  | S754_infinity s | S754_finite s _ _ => s = false
  end.

(** 49 closes at 100: too short a history. *)
Definition short_closes : list float := repeat 100 49.

(** 52 closes at 100: enough for a moving average of three values, too
    few for a slope. *)
Definition brief_closes : list float := repeat 100 52.

(** A name lookup that answers with both names. *)
Definition named : TickerInfo :=
  {| longName := Some "Keurig Dr Pepper Inc."%string;
     shortName := Some "Keurig Dr Pepper"%string |}.

Definition yf_named (closes : list float) (ticker : string)
  : result TickerObj :=
  Ok {| info := Ok named; history := Ok (rows_of closes) |}.

(** A provider that answers every ticker with the given name lookup and
    the given rows, in the order given. *)
Definition yf_rows (i : result TickerInfo) (rows : list row)
    (ticker : string) : result TickerObj :=
  Ok {| info := i; history := Ok rows |}.

(** Rows in the order of their dates. *)
Definition by_date (r r' : row) : Prop := (Date r <= Date r')%Z.

(** ** [fetch_all_data] *)

(** [for res in executor.map(f, xs): results.append(res)].  The calls
    run on a pool of threads; [executor.map] hands the results over in
    the order of [xs], and raises in the loop the exception of a call
    that raised.  Entries logged by different calls may interleave; the
    model keeps them in the order of [xs], and no statement on
    [fetch_all_data] speaks of the order of the log. *)
Fixpoint executor_map {A B} (f : A -> M B) (xs : list A) : M (list B) :=
  match xs with
  | [] => ret []
  | x :: rest =>
      res <- f x ;;
      results <- executor_map f rest ;;
      ret (res :: results)
  end.

(** ** The driver *)

(** What [main] writes to the terminal.  A table is kept as the rows it
    shows, not as text. *)
Inductive output : Type :=
| Prompt (text : string)
| Print (line : string)
| PrintScores (rows : list ScoreResult)
| PrintAllocation (rows : list AllocationRecord).

(** What [main] does that can be observed: the log entries of the
    functions it calls, its own log entry on a bad capital, and its
    output. *)
Inductive event : Type :=
| Logged (entry : log_entry)
| LoggedCapital (e : exn)
| Printed (o : output).

Definition IO (A : Type) : Type := (result A * list event)%type.

Definition io_ret {A} (a : A) : IO A := (Ok a, []).

Definition io_raise {A} (e : exn) : IO A := (Raise e, []).

Definition io_bind {A B} (m : IO A) (f : A -> IO B) : IO B :=
  match m with
  | (Ok a, l) => let (r, l') := f a in (r, l ++ l')
  | (Raise e, l) => (Raise e, l)
  end.

Definition io_try {A} (body : IO A) (handler : exn -> IO A) : IO A :=
  match body with
  | (Ok a, l) => (Ok a, l)
  | (Raise e, l) => let (r, l') := handler e in (r, l ++ l')
  end.

Definition print (o : output) : IO unit := (Ok tt, [Printed o]).

Definition io_lift {A} (r : result A) : IO A := (r, []).

(** A call of a function of the program, with its log entries. *)
Definition run {A} (m : M A) : IO A := (fst m, map Logged (snd m)).

Notation "x <~ m ;; k" := (io_bind m (fun x => k))
  (at level 61, m at next level, right associativity).
Notation "m ;;~ k" := (io_bind m (fun _ => k))
  (at level 61, right associativity).

(** The output among the events, in order. *)
Definition outputs (events : list event) : list output :=
  flat_map (fun ev => match ev with Printed o => [o] | _ => [] end) events.

Definition nl : string := String (Ascii.ascii_of_nat 10) EmptyString.

Definition tickers : list string :=
  ["GRG.L"; "LEG"; "MAN"; "LDOS"; "LKQ"; "KDP"; "UPS"; "GPC"]%string.

(** Lines 175-182: the capital from the command line, else from the
    prompt; 3000.0 when reading it raises or it is at or below zero.
    [typed] is what [float(input(...))] gives. *)
Definition read_capital (args_capital : option float) (typed : result float)
  : IO float :=
  io_try
    (monthly_capital <~
       match args_capital with
       | Some c => io_ret c
       | None =>
           print (Prompt "Podaj miesięczną kwotę inwestycji (np. 1072.32): ")
           ;;~ io_lift typed
       end ;;
     if monthly_capital <=? 0 then
       io_raise (ValueError "Kwota inwestycji musi być dodatnia.")
     else io_ret monthly_capital)
    (fun e => (Ok tt, [LoggedCapital e]) ;;~ io_ret 3000).

Definition msg_fetching : string := "Pobieranie danych dla spółek...".
Definition msg_no_data : string :=
  "Brak poprawnych danych lub sygnałów kupna. Sprawdź logi błędów.".
Definition msg_scores : string :=
  nl ++ "Wyniki oceny (spółki, im bliżej ceny do MA50, tym lepszy score):".
Definition msg_no_candidate : string := "Brak spółek spełniających kryterium.".
Definition msg_allocation : string := nl ++ "Proponowana alokacja kapitału:".
Definition msg_no_allocation : string :=
  "Brak spółek z dodatnim score do alokacji kapitału.".
Definition msg_time (now : string) : string :=
  nl ++ "Analiza przeprowadzona: " ++ now.

Section Driver.

Variable math_exp : float -> float.
Variable yf_Ticker : string -> result TickerObj.

(** [df_buy.sort_values(by='Score', ascending=False)] and the text of
    [datetime.now()] are taken as given. *)
Variable sort_values : list ScoreResult -> list ScoreResult.
Variable now : string.

Definition fetch_all_data (tickers : list string) : M (list ScoreResult) :=
  executor_map (fetch_stock_data math_exp yf_Ticker) tickers.

Definition main (args_capital : option float) (typed : result float)
  : IO unit :=
  monthly_capital <~ read_capital args_capital typed ;;
  print (Print msg_fetching) ;;~
  data <~ run (fetch_all_data tickers) ;;
  if (length data =? 0)%nat || forallb (fun item => Score item =? 0) data
  then print (Print msg_no_data)
  else
    let df := DataFrame.of_records data in
    print (Print msg_scores) ;;~
    score <~ io_lift (DataFrame.Score_column df) ;;
    let df_buy := filter (fun r => 0 <? Score r) (DataFrame.rows df) in
    (if (length df_buy =? 0)%nat then print (Print msg_no_candidate)
     else
       let df_buy := sort_values df_buy in
       print (PrintScores df_buy) ;;~
       allocation <~ run (allocate_investment data monthly_capital) ;;
       match allocation with
       | _ :: _ =>
           print (Print msg_allocation) ;;~
           print (PrintAllocation allocation)
       | [] => print (Print msg_no_allocation)
       end) ;;~
    print (Print (msg_time now)).

End Driver.

(** A provider that raises on every ticker. *)
Definition yf_down (ticker : string) : result TickerObj :=
  Raise (ProviderError "network").

(** The prompt is written when, and only when, the command line gives
    no capital. *)
Definition prompted (args_capital : option float) : list event :=
  match args_capital with
  | Some _ => []
  | None =>
      [Printed (Prompt "Podaj miesięczną kwotę inwestycji (np. 1072.32): ")]
  end.

(** What [main] writes after the line that announces the fetching, for
    the records scored and the capital read: nothing but a notice when
    every score is zero; else the scores and the allocation, or a
    notice that no score is above zero, and then the time. *)
Definition report (sort_values : list ScoreResult -> list ScoreResult)
    (now : string) (monthly_capital : float) (data : list ScoreResult)
  : list output :=
  if forallb (fun item => Score item =? 0) data then [Print msg_no_data]
  else
    match filter (fun r => 0 <? Score r) data with
    | [] => [Print msg_scores; Print msg_no_candidate; Print (msg_time now)]
    | df_buy =>
        [Print msg_scores; PrintScores (sort_values df_buy);
         Print msg_allocation;
         PrintAllocation
           (map (allocation_row (Np.sum (map Score df_buy)) monthly_capital)
                df_buy);
         Print (msg_time now)]
    end.

(** The order of the frame as it is: a stand-in for [sort_values] when
    running [main] on sample data. *)
Definition unsorted (rows : list ScoreResult) : list ScoreResult := rows.

(** * Properties *)

(** ** The monad *)

Section MonadLaws.

Context {A B : Type}.

Lemma bind_Ok (a : A) (f : A -> M B) : bind (Ok a, []) f = f a.
Proof. unfold bind. destruct (f a). reflexivity. Qed.

Lemma bind_lift_Ok (a : A) (f : A -> M B) : bind (lift (Ok a)) f = f a.
Proof. apply bind_Ok. Qed.

Lemma bind_lift_Raise (e : exn) (f : A -> M B) :
  bind (lift (Raise e)) f = (Raise e, []).
Proof. reflexivity. Qed.

End MonadLaws.

(** ** Comparison of binary64 values *)

Section Comparison.

Lemma SFcompare_antisym x y :
  SFcompare y x = option_map CompOpp (SFcompare x y).
Proof.
  destruct x as [sx|sx| |sx mx ex], y as [sy|sy| |sy my ey]; simpl;
    try reflexivity;
    try (destruct sx; reflexivity); try (destruct sy; reflexivity);
    try (destruct sx, sy; reflexivity).
  destruct sx, sy; simpl; try reflexivity;
    rewrite (Z.compare_antisym ex ey); destruct (ex ?= ey)%Z; simpl;
    try reflexivity;
    rewrite <- (Pos.compare_cont_antisym _ _ Eq); simpl;
    destruct (Pos.compare_cont Eq mx my); reflexivity.
Qed.

Lemma SFcompare_some x y :
  x <> S754_nan -> y <> S754_nan -> exists c, SFcompare x y = Some c.
Proof.
  destruct x, y; simpl; intros; try congruence; eexists; reflexivity.
Qed.

Lemma leb_true_ltb_false x y : (x <=? y) = true -> (y <? x) = false.
Proof.
  rewrite leb_spec, ltb_spec. unfold SFleb, SFltb.
  rewrite (SFcompare_antisym (Prim2SF x) (Prim2SF y)).
  destruct (SFcompare (Prim2SF x) (Prim2SF y)) as [[]|]; simpl; congruence.
Qed.

Lemma ltb_true_leb_false x y : (x <? y) = true -> (y <=? x) = false.
Proof.
  rewrite leb_spec, ltb_spec. unfold SFleb, SFltb.
  rewrite (SFcompare_antisym (Prim2SF x) (Prim2SF y)).
  destruct (SFcompare (Prim2SF x) (Prim2SF y)) as [[]|]; simpl; congruence.
Qed.

(** Away from NaN the order is total. *)
Lemma ltb_false_leb_true x y :
  Prim2SF x <> S754_nan -> Prim2SF y <> S754_nan ->
  (x <? y) = false -> (y <=? x) = true.
Proof.
  rewrite leb_spec, ltb_spec. unfold SFleb, SFltb.
  rewrite (SFcompare_antisym (Prim2SF x) (Prim2SF y)).
  intros Hx Hy. destruct (SFcompare_some Hx Hy) as [c ->].
  destruct c; simpl; congruence.
Qed.

End Comparison.

(** ** Rounding keeps the sign, and keeps positive values positive *)

Section Rounding.

Local Open Scope Z_scope.

Lemma shr_1_digits mrs :
  0 <= shr_m mrs ->
  0 <= shr_m (shr_1 mrs) /\
  Zdigits2 (shr_m (shr_1 mrs)) = Z.max 0 (Zdigits2 (shr_m mrs) - 1).
Proof.
  destruct mrs as [m r s]. cbn [shr_m]. intros Hm.
  destruct m as [|p|p]; [split; [simpl; lia|reflexivity] | | lia].
  destruct p; cbn [shr_1 shr_m Zdigits2 digits2_pos];
    rewrite ?Pos2Z.inj_succ; split; lia.
Qed.

Lemma iter_shr_1_digits p : forall mrs,
  0 <= shr_m mrs ->
  0 <= shr_m (iter_pos shr_1 p mrs) /\
  Zdigits2 (shr_m (iter_pos shr_1 p mrs)) =
    Z.max 0 (Zdigits2 (shr_m mrs) - Zpos p).
Proof.
  induction p as [p IH|p IH|]; intros mrs Hm; simpl.
  - destruct (shr_1_digits mrs Hm) as [H1 E1].
    destruct (IH _ H1) as [H2 E2]. destruct (IH _ H2) as [H3 E3].
    split; [assumption|]. rewrite E3, E2, E1, Pos2Z.inj_xI. lia.
  - destruct (IH _ Hm) as [H2 E2]. destruct (IH _ H2) as [H3 E3].
    split; [assumption|]. rewrite E3, E2, Pos2Z.inj_xO. lia.
  - apply shr_1_digits; assumption.
Qed.

Lemma Zdigits2_pos_iff m : 0 <= m -> (0 < Zdigits2 m <-> 0 < m).
Proof. destruct m; simpl; lia. Qed.

Lemma shr_record_of_loc_m m l : shr_m (shr_record_of_loc m l) = m.
Proof. destruct l as [|[]]; reflexivity. Qed.

Lemma shr_fexp_nonneg m e l :
  0 <= m -> 0 <= shr_m (fst (shr_fexp prec emax m e l)).
Proof.
  intros Hm. unfold shr_fexp, shr.
  destruct (fexp prec emax (Zdigits2 m + e) - e) as [|p|p]; simpl;
    rewrite ?shr_record_of_loc_m; try assumption.
  apply iter_shr_1_digits. rewrite shr_record_of_loc_m. assumption.
Qed.

(** From the least exponent upwards a shift removes fewer digits than
    the mantissa has: nothing underflows to zero. *)
Lemma shr_fexp_pos m e l :
  0 < m -> emin <= e ->
  0 < shr_m (fst (shr_fexp prec emax m e l)) /\
  emin <= snd (shr_fexp prec emax m e l).
Proof.
  intros Hm He. unfold shr_fexp, shr.
  destruct (fexp prec emax (Zdigits2 m + e) - e) as [|p|p] eqn:E; simpl;
    rewrite ?shr_record_of_loc_m; try (split; assumption).
  pose proof (iter_shr_1_digits p (shr_record_of_loc m l)) as H.
  rewrite shr_record_of_loc_m in H. destruct H as [H0 HD]; [lia|].
  split; [|lia].
  apply Zdigits2_pos_iff; [assumption|]. rewrite HD.
  unfold fexp, SpecFloat.emin, prec, emax in *. lia.
Qed.

Lemma round_nearest_even_ge m l : m <= round_nearest_even m l.
Proof.
  destruct l as [|[]]; simpl; try lia. destruct (Z.even m); lia.
Qed.

Lemma binary_round_aux_signed s m e l :
  0 <= m -> SFsigned s (binary_round_aux prec emax s m e l).
Proof.
  intros Hm. unfold binary_round_aux.
  pose proof (shr_fexp_nonneg e l Hm) as H1.
  destruct (shr_fexp prec emax m e l) as [mrs' e']. simpl in H1.
  pose proof (round_nearest_even_ge (shr_m mrs') (loc_of_shr_record mrs'))
    as H2.
  assert (H3 : 0 <= round_nearest_even (shr_m mrs') (loc_of_shr_record mrs'))
    by lia.
  pose proof (shr_fexp_nonneg e' loc_Exact H3) as H4.
  destruct (shr_fexp prec emax _ e' loc_Exact) as [mrs'' e'']. simpl in H4.
  destruct (shr_m mrs''); simpl; try reflexivity; try lia.
  match goal with |- context [if ?c then _ else _] => destruct c end;
    reflexivity.
Qed.

Lemma binary_round_aux_positive m e l :
  0 < m -> emin <= e ->
  SFpositive (binary_round_aux prec emax false m e l).
Proof.
  intros Hm He. unfold binary_round_aux.
  pose proof (shr_fexp_pos l Hm He) as [H1 H1'].
  destruct (shr_fexp prec emax m e l) as [mrs' e']. simpl in H1, H1'.
  pose proof (round_nearest_even_ge (shr_m mrs') (loc_of_shr_record mrs'))
    as H2.
  assert (H3 : 0 < round_nearest_even (shr_m mrs') (loc_of_shr_record mrs'))
    by lia.
  pose proof (shr_fexp_pos loc_Exact H3 H1') as [H4 _].
  destruct (shr_fexp prec emax _ e' loc_Exact) as [mrs'' e'']. simpl in H4.
  destruct (shr_m mrs''); simpl; try lia.
  match goal with |- context [if ?c then _ else _] => destruct c end;
    exact I.
Qed.

End Rounding.

(** ** Signs through the operations of the format *)

Section Operations.

Lemma binary_normalize_not_nan m e sz :
  binary_normalize prec emax m e sz <> S754_nan.
Proof.
  destruct m as [|p|p]; simpl; [discriminate| |];
    unfold binary_round;
    destruct (shl_align _ _ _) as [mz ez];
    match goal with |- binary_round_aux _ _ ?s ?m ?e ?l <> _ =>
      pose proof (@binary_round_aux_signed s m e l) as H end;
    (destruct (binary_round_aux _ _ _ _ _ _);
     [discriminate|discriminate|exfalso; apply H; lia|discriminate]).
Qed.

Lemma valid_binary_emin s m e :
  valid_binary (S754_finite s m e) = true -> (emin <= e)%Z.
Proof.
  simpl. unfold bounded, canonical_mantissa, fexp.
  intros H. apply andb_prop in H as [H _]. apply Z.eqb_eq in H. lia.
Qed.

Lemma shl_align_exp m e e' : (emin <= e)%Z -> (emin <= e')%Z ->
  (emin <= snd (shl_align m e e'))%Z.
Proof.
  intros. unfold shl_align. destruct (e' - e)%Z; simpl; assumption.
Qed.

Lemma binary_round_positive m e :
  (emin <= e)%Z -> SFpositive (binary_round prec emax false m e).
Proof.
  intros He. unfold binary_round.
  pose proof (@shl_align_exp m e
                (fexp prec emax (Z.pos (digits2_pos m) + e)) He) as H.
  destruct (shl_align _ _ _) as [mz ez]. simpl in H.
  apply binary_round_aux_positive; [lia|].
  apply H. unfold fexp. lia.
Qed.

Lemma SFadd_positive x y :
  valid_binary x = true -> valid_binary y = true ->
  SFpositive x -> SFpositive y -> SFpositive (SF64add x y).
Proof.
  destruct x as [sx|sx| |sx mx ex], y as [sy|sy| |sy my ey]; simpl;
    try contradiction; try (destruct sx; try contradiction);
    try (destruct sy; try contradiction); intros Vx Vy _ _; try exact I.
  apply (@valid_binary_emin false) in Vx.
  apply (@valid_binary_emin false) in Vy.
  unfold SF64add, SFadd, cond_Zopp. cbn [Z.add binary_normalize].
  apply binary_round_positive. lia.
Qed.

Lemma SFadd_zero_positive y :
  SFpositive y -> SF64add (S754_zero false) y = y.
Proof.
  destruct y as [s|s| |s m e]; simpl; try contradiction; reflexivity.
Qed.

Lemma SFadd_finite_signed m e y :
  SFsigned false y -> SF64add (S754_finite false m e) y <> S754_nan.
Proof.
  destruct y as [s|s| |s my ey]; simpl; try contradiction; try discriminate.
  intros _. apply binary_normalize_not_nan.
Qed.

Lemma SFmul_finite_positive m e y :
  SFpositive y -> SFsigned false (SF64mul (S754_finite false m e) y).
Proof.
  destruct y as [s|s| |s my ey]; simpl; try contradiction;
    destruct s; try contradiction; intros _; [reflexivity|].
  apply binary_round_aux_signed. lia.
Qed.

Lemma SFmul_self x : SFnan_or_sign false (SF64mul x x).
Proof.
  destruct x as [s|s| |s m e]; simpl; try (destruct s; reflexivity);
    try exact I.
  pose proof (@binary_round_aux_signed (xorb s s) (Z.pos (m * m)) (e + e)
                loc_Exact) as H.
  destruct (binary_round_aux _ _ _ _ _ _); simpl in *; try exact I;
    (rewrite <- (xorb_nilpotent s); apply H; lia).
Qed.

Lemma SFopp_nan_or_sign s x :
  SFnan_or_sign s x -> SFnan_or_sign (negb s) (SFopp x).
Proof. destruct x; simpl; intros; subst; auto. Qed.

Lemma SFdiv_core_nonneg m1 e1 m2 e2 :
  (0 <= fst (fst (SFdiv_core_binary prec emax (Z.pos m1) e1 (Z.pos m2) e2)))%Z.
Proof.
  unfold SFdiv_core_binary.
  set (s := (e1 - e2 - _)%Z).
  set (m' := match s with Z0 => _ | Zpos _ => _ | Zneg _ => _ end).
  assert (Hm : (0 <= m')%Z).
  { subst m'. destruct s; try lia. apply Z.shiftl_nonneg. lia. }
  pose proof (Z.div_pos m' (Z.pos m2) Hm ltac:(lia)) as Hq.
  unfold Z.div in Hq. destruct (Z.div_eucl m' (Z.pos m2)) as [q r]. exact Hq.
Qed.

Lemma SFdiv_positive_divisor s x m e :
  SFnan_or_sign s x ->
  SFnan_or_sign s (SF64div x (S754_finite false m e)).
Proof.
  destruct x as [sx|sx| |sx mx ex]; simpl; intros H;
    rewrite ?xorb_false_r; try assumption; try exact I.
  pose proof (SFdiv_core_nonneg mx ex m e) as Hq.
  destruct (SFdiv_core_binary _ _ _ _ _ _) as [[mz ez] lz]. simpl in Hq.
  pose proof (@binary_round_aux_signed sx mz ez lz Hq) as H'.
  destruct (binary_round_aux _ _ _ _ _ _); simpl in *; try exact I;
    congruence.
Qed.

Lemma SFltb_zero_sign_true y :
  SFnan_or_sign true y -> SFltb (S754_zero false) y = false.
Proof. destruct y; simpl; intros; subst; reflexivity. Qed.

End Operations.

(** ** The same, on the floats of the program *)

Section FloatFacts.

Lemma Prim2SF_zero : Prim2SF 0 = S754_zero false.
Proof. reflexivity. Qed.

Lemma Prim2SF_one : Prim2SF 1 = S754_finite false 4503599627370496 (-52).
Proof. reflexivity. Qed.

Lemma ltb_zero_positive x : (0 <? x) = true <-> SFpositive (Prim2SF x).
Proof.
  rewrite ltb_spec, Prim2SF_zero.
  destruct (Prim2SF x) as [s|s| |s m e]; try (destruct s);
    cbv [SFltb SFcompare SFpositive SFopp negb]; intuition congruence.
Qed.

Lemma ltb_zero_negative x :
  (x <? 0) = true -> SFpositive (Prim2SF (- x)).
Proof.
  rewrite ltb_spec, opp_spec, Prim2SF_zero.
  destruct (Prim2SF x) as [s|s| |s m e]; try (destruct s);
    cbv [SFltb SFcompare SFpositive SFopp negb]; intuition congruence.
Qed.

Lemma add_positive a b :
  (0 <? a) = true -> (0 <? b) = true -> (0 <? a + b) = true.
Proof.
  rewrite !ltb_zero_positive, add_spec.
  apply SFadd_positive; apply Prim2SF_valid.
Qed.

Lemma add_zero_positive b : (0 <? b) = true -> 0 + b = b.
Proof.
  rewrite ltb_zero_positive. intros H. apply Prim2SF_inj.
  rewrite add_spec, Prim2SF_zero. apply SFadd_zero_positive, H.
Qed.

Lemma fold_add_positive xs : forall acc,
  (0 <? acc) = true -> Forall (fun x => (0 <? x) = true) xs ->
  (0 <? fold_left add xs acc) = true.
Proof.
  induction xs as [|x xs IH]; simpl; intros acc Hacc Hxs; [assumption|].
  inversion Hxs; subst. apply IH; [apply add_positive|]; assumption.
Qed.

(** A sum of values greater than zero is greater than zero (it may be
    the infinity). *)
Lemma sum_positive xs :
  xs <> [] -> Forall (fun x => (0 <? x) = true) xs ->
  (0 <? Np.sum xs) = true.
Proof.
  destruct xs as [|x xs]; [congruence|]. intros _ H. inversion H; subst.
  unfold Np.sum. simpl. rewrite add_zero_positive by assumption.
  apply fold_add_positive; assumption.
Qed.

Lemma one_plus_gamma_not_nan d :
  (d <? 0) = true -> Prim2SF (1 + gamma * (- d)) <> S754_nan.
Proof.
  intros Hd. apply ltb_zero_negative in Hd.
  rewrite add_spec, mul_spec, Prim2SF_one.
  change (Prim2SF gamma) with (S754_finite false 4503599627370496 (-52)).
  apply SFadd_finite_signed, SFmul_finite_positive, Hd.
Qed.

(** The bonus is never NaN, so the fourth check of the validator
    leaves a value that is at least 1. *)
Lemma bonus_of_validated_ge_one d :
  (1 <=? raised_to_one (bonus_of d)) = true.
Proof.
  unfold raised_to_one.
  destruct (bonus_of d <? 1) eqn:E; [reflexivity|].
  apply ltb_false_leb_true in E;
    [assumption| |rewrite Prim2SF_one; discriminate].
  unfold bonus_of. destruct (d <? 0) eqn:Hd.
  - apply one_plus_gamma_not_nan, Hd.
  - rewrite Prim2SF_one. discriminate.
Qed.

(** The argument of the exponential is NaN or carries a minus sign. *)
Lemma proximity_arg_sign d :
  SFnan_or_sign true (Prim2SF (- (d * d) / (2 * (sigma * sigma)))).
Proof.
  rewrite div_spec, opp_spec, mul_spec.
  change (Prim2SF (2 * (sigma * sigma)))
    with (S754_finite false 8301034833169298 (-62)).
  apply SFdiv_positive_divisor.
  apply (@SFopp_nan_or_sign false), SFmul_self.
Qed.

Lemma proximity_arg_not_positive d :
  (0 <? - (d * d) / (2 * (sigma * sigma))) = false.
Proof.
  rewrite ltb_spec, Prim2SF_zero.
  apply SFltb_zero_sign_true, proximity_arg_sign.
Qed.

Lemma eqb_zero x : (x =? 0) = true -> exists s, Prim2SF x = S754_zero s.
Proof.
  rewrite eqb_spec, Prim2SF_zero.
  destruct (Prim2SF x) as [s|s| |s m e]; simpl;
    try (destruct s; discriminate); try discriminate.
  intros _. exists s. reflexivity.
Qed.

Lemma proximity_arg_zero d :
  (d =? 0) = true -> - (d * d) / (2 * (sigma * sigma)) = - 0.
Proof.
  intros H. destruct (eqb_zero H) as [s Hs]. apply Prim2SF_inj.
  rewrite div_spec, opp_spec, mul_spec, Hs.
  change (Prim2SF (2 * (sigma * sigma)))
    with (S754_finite false 8301034833169298 (-62)).
  destruct s; reflexivity.
Qed.

(** A finite price other than zero is at distance zero from itself. *)
Lemma distance_self x :
  (neg_infinity <? x) = true -> (x <? infinity) = true ->
  (x =? 0) = false -> (distance x x =? 0) = true.
Proof.
  rewrite (ltb_spec x), (ltb_spec _ x), (eqb_spec x), (eqb_spec (distance x x)).
  unfold distance. rewrite div_spec, sub_spec, Prim2SF_zero.
  change (Prim2SF infinity) with (S754_infinity false).
  change (Prim2SF neg_infinity) with (S754_infinity true).
  destruct (Prim2SF x) as [s|s| |s m e]; try (destruct s; discriminate);
    try discriminate.
  intros _ _ _. unfold SF64sub, SFsub.
  rewrite Z.min_id. unfold shl_align. rewrite Z.sub_diag. simpl fst.
  destruct s; reflexivity.
Qed.

End FloatFacts.

(** ** The validator *)

Section Validator.

(** The five checks touch four fields, each on its own. *)
Lemma validate_result_fst r :
  fst (validate_result r) =
  {| Ticker := Ticker r; Company := Company r;
     CurrentPrice := CurrentPrice r; MA50 := MA50 r;
     DistancePct := DistancePct r;
     Flatness := clamped (Flatness r);
     Proximity := clamped (Proximity r);
     Bonus := raised_to_one (Bonus r);
     Score := checked_score (CurrentPrice r) (MA50 r) (Score r) |}.
Proof.
  destruct r. unfold validate_result, clamped, raised_to_one, checked_score.
  repeat (cbn; match goal with
               | |- context [if ?c then _ else _] => destruct c
               end);
    reflexivity.
Qed.

Lemma clamped_idem x : clamped (clamped x) = clamped x.
Proof.
  unfold clamped at 2 3. unfold Py.max, Py.min.
  destruct (1 <? x) eqn:E1.
  - rewrite orb_true_r. reflexivity.
  - rewrite orb_false_r. destruct (x <? 0) eqn:E0.
    + destruct (0 <? x) eqn:Ep; [|reflexivity].
      unfold clamped, Py.max, Py.min. rewrite E0, E1, Ep. reflexivity.
    + unfold clamped. rewrite E0, E1. reflexivity.
Qed.

Lemma raised_to_one_idem x :
  raised_to_one (raised_to_one x) = raised_to_one x.
Proof.
  unfold raised_to_one. destruct (x <? 1) eqn:E; [reflexivity|].
  rewrite E. reflexivity.
Qed.

Lemma checked_score_idem cp ma s :
  checked_score cp ma (checked_score cp ma s) = checked_score cp ma s.
Proof.
  unfold checked_score.
  destruct (Py.none_or_nonpositive cp ma); [reflexivity|].
  destruct (Py.isnan s || Py.isinf s) eqn:E; [reflexivity|].
  rewrite E. reflexivity.
Qed.

(** No output of the validator is a fallback dictionary: its [Bonus]
    is never 0. *)
Lemma validate_result_never_fallback ticker raw :
  fst (validate_result raw) <> fallback ticker.
Proof.
  intros H. apply (f_equal Bonus) in H. rewrite validate_result_fst in H.
  cbn in H. unfold raised_to_one in H.
  destruct (Bonus raw <? 1) eqn:E.
  - apply (f_equal (fun x => x <? 1)) in H. vm_compute in H. discriminate.
  - rewrite H in E. vm_compute in E. discriminate.
Qed.

End Validator.

(** C10.  The validator is idempotent: validating a validated record
    changes nothing in it. *)
Theorem validate_result_idempotent (r : ScoreResult) :
  fst (validate_result (fst (validate_result r))) = fst (validate_result r).
Proof.
  rewrite (validate_result_fst (fst (validate_result r))).
  rewrite !(validate_result_fst r).
  cbn [Ticker Company CurrentPrice MA50 DistancePct
       Flatness Proximity Bonus Score].
  rewrite !clamped_idem, raised_to_one_idem, checked_score_idem.
  reflexivity.
Qed.

(** C8.  When [CurrentPrice] or [MA50] is [None] or at most 0, the
    validator sets [Score] to 0.0 and leaves [CurrentPrice] and [MA50]
    as they were. *)
Theorem validate_result_bad_prices (r : ScoreResult) :
  (CurrentPrice r = None \/ MA50 r = None \/
   (exists cp, CurrentPrice r = Some cp /\ (cp <=? 0) = true) \/
   (exists ma50, MA50 r = Some ma50 /\ (ma50 <=? 0) = true)) ->
  Score (fst (validate_result r)) = 0 /\
  CurrentPrice (fst (validate_result r)) = CurrentPrice r /\
  MA50 (fst (validate_result r)) = MA50 r.
Proof.
  intros H. rewrite validate_result_fst. cbn [Score CurrentPrice MA50].
  repeat split. unfold checked_score.
  assert (E : Py.none_or_nonpositive (CurrentPrice r) (MA50 r) = true).
  { unfold Py.none_or_nonpositive.
    destruct H as [H|[H|[[cp [H Hc]]|[ma [H Hm]]]]]; rewrite H.
    - reflexivity.
    - destruct (CurrentPrice r); reflexivity.
    - destruct (MA50 r); [rewrite Hc|]; reflexivity.
    - destruct (CurrentPrice r); [rewrite Hm; apply orb_true_r|reflexivity]. }
  rewrite E. reflexivity.
Qed.

Lemma validate_result_bad_prices_witness :
  (CurrentPrice negative_price = None \/ MA50 negative_price = None \/
   (exists cp, CurrentPrice negative_price = Some cp /\ (cp <=? 0) = true) \/
   (exists ma50, MA50 negative_price = Some ma50 /\ (ma50 <=? 0) = true)) /\
  Score (fst (validate_result negative_price)) = 0 /\
  CurrentPrice (fst (validate_result negative_price)) = Some (-5) /\
  MA50 (fst (validate_result negative_price)) = Some 100.
Proof.
  assert (H : CurrentPrice negative_price = None \/
              MA50 negative_price = None \/
              (exists cp, CurrentPrice negative_price = Some cp /\
                          (cp <=? 0) = true) \/
              (exists ma50, MA50 negative_price = Some ma50 /\
                            (ma50 <=? 0) = true)).
  { right. right. left. exists (-5). split; reflexivity. }
  split; [exact H|]. exact (@validate_result_bad_prices negative_price H).
Defined.

(** ** The scorer *)

Section ScorerFacts.

Variable math_exp : float -> float.
Variable yf_Ticker : string -> result TickerObj.

Lemma iloc_neg_last {A} (xs : list A) :
  xs <> [] -> exists x, Pd.iloc_neg xs 1 = Ok x.
Proof.
  intros H. unfold Pd.iloc_neg.
  destruct xs as [|a xs]; [congruence|].
  cbn [length Nat.eqb Nat.ltb Nat.leb orb].
  destruct (nth_error (a :: xs) (S (length xs) - 1)) eqn:E; [eauto|].
  apply nth_error_None in E. simpl in E. lia.
Qed.

Lemma iloc_neg_nth {A} (xs : list A) k (d : A) :
  (1 <= k <= length xs)%nat ->
  Pd.iloc_neg xs k = Ok (nth (length xs - k) xs d).
Proof.
  intros H. unfold Pd.iloc_neg.
  replace (k =? 0)%nat with false by (symmetry; apply Nat.eqb_neq; lia).
  replace (length xs <? k)%nat with false
    by (symmetry; apply Nat.ltb_ge; lia).
  cbn [orb]. rewrite (nth_error_nth' xs d) by lia. reflexivity.
Qed.

(** What [slope_of] computes: with five values or more, the change
    from the fifth value counted from the end, which lies four periods
    before the latest one; with fewer, 0. *)
Lemma slope_of_spec (ma50_series : list float) (ma50_latest : float) :
  slope_of ma50_series ma50_latest =
  (Ok (if (5 <=? length ma50_series)%nat
       then let ago := nth (length ma50_series - 5) ma50_series 0 in
            (ma50_latest - ago) / ago
       else 0), []).
Proof.
  unfold slope_of.
  destruct (5 <=? length ma50_series)%nat eqn:E; [|reflexivity].
  apply Nat.leb_le in E.
  rewrite (iloc_neg_nth ma50_series 0), bind_lift_Ok by lia. reflexivity.
Qed.

Lemma insert_row_length r rows :
  length (Pd.insert_row r rows) = S (length rows).
Proof.
  induction rows as [|r' rows IH]; simpl; [reflexivity|].
  destruct (Date r <? Date r')%Z; simpl; [reflexivity|].
  rewrite IH. reflexivity.
Qed.

Lemma sort_index_length data : length (Pd.sort_index data) = length data.
Proof.
  unfold Pd.sort_index.
  enough (H : forall acc,
             length (fold_left (fun s r => Pd.insert_row r s) data acc)
             = (length data + length acc)%nat).
  { rewrite H. simpl. lia. }
  induction data as [|r data IH]; intros acc; simpl; [reflexivity|].
  rewrite IH, insert_row_length. lia.
Qed.

(** Whatever the [try] block returns is an output of the validator, on
    the dictionary assembled from the metrics. *)
Lemma fetch_stock_data_try_Ok ticker r l :
  fetch_stock_data_try math_exp yf_Ticker ticker = (Ok r, l) ->
  exists company_name current_price ma50_latest slope,
    validate_result
      (assemble math_exp ticker company_name current_price ma50_latest slope)
    = (r, l).
Proof.
  unfold fetch_stock_data_try.
  destruct (yf_Ticker ticker) as [obj|e];
    [rewrite bind_lift_Ok|discriminate].
  destruct (info obj) as [i|e]; [rewrite bind_lift_Ok|discriminate].
  destruct (history obj) as [data|e]; [rewrite bind_lift_Ok|discriminate].
  destruct ((length data =? 0)%nat || (length data <? 50)%nat);
    [discriminate|].
  destruct (length (Pd.dropna _) =? 0)%nat; [discriminate|].
  destruct (Pd.iloc_neg (map Close (Pd.sort_index data)) 1) as [cp|e];
    [rewrite bind_lift_Ok|discriminate].
  destruct (Pd.iloc_neg (Pd.dropna _) 1) as [ma|e];
    [rewrite bind_lift_Ok|discriminate].
  rewrite slope_of_spec, bind_Ok. unfold writer.
  match goal with |- context [validate_result ?x] =>
    destruct (validate_result x) as [r' l'] eqn:E end.
  cbn. intros H. injection H as -> ->. eauto.
Qed.

(** The [try] block returns when the provider answered with at least
    50 rows whose moving average has a defined value. *)
Lemma fetch_stock_data_try_success ticker obj i data :
  yf_Ticker ticker = Ok obj -> info obj = Ok i -> history obj = Ok data ->
  (50 <= length data)%nat ->
  let close := map Close (Pd.sort_index data) in
  let ma50_series := Pd.dropna (Pd.rolling_mean 50 close) in
  ma50_series <> [] ->
  exists current_price ma50_latest slope,
    Pd.iloc_neg close 1 = Ok current_price /\
    Pd.iloc_neg ma50_series 1 = Ok ma50_latest /\
    slope_of ma50_series ma50_latest = (Ok slope, []) /\
    fetch_stock_data_try math_exp yf_Ticker ticker =
    writer (validate_result
              (assemble math_exp ticker (company_name_of i ticker)
                        current_price ma50_latest slope)).
Proof.
  intros Hobj Hi Hh Hlen close ma50_series Hma.
  assert (Hclose : close <> []).
  { intros E. apply (f_equal (@length _)) in E. subst close.
    rewrite length_map, sort_index_length in E. simpl in E. lia. }
  destruct (iloc_neg_last Hclose) as [cp Hcp].
  destruct (iloc_neg_last Hma) as [ma Hm].
  exists cp, ma. eexists. split; [exact Hcp|]. split; [exact Hm|].
  split; [apply slope_of_spec|].
  unfold fetch_stock_data_try.
  rewrite Hobj, bind_lift_Ok, Hi, bind_lift_Ok, Hh, bind_lift_Ok.
  replace ((length data =? 0)%nat || (length data <? 50)%nat) with false.
  2:{ symmetry. apply orb_false_iff.
      split; [apply Nat.eqb_neq|apply Nat.ltb_ge]; lia. }
  fold close. fold ma50_series.
  destruct (length ma50_series =? 0)%nat eqn:E.
  { apply Nat.eqb_eq, length_zero_iff_nil in E. contradiction. }
  rewrite Hcp, bind_lift_Ok, Hm, bind_lift_Ok, slope_of_spec, bind_Ok.
  reflexivity.
Qed.

(** The [try] block raises when the history request raises, and when
    the history has fewer than 50 rows. *)
Lemma fetch_stock_data_try_history_error ticker obj e :
  yf_Ticker ticker = Ok obj -> history obj = Raise e ->
  exists e', fetch_stock_data_try math_exp yf_Ticker ticker = (Raise e', []).
Proof.
  intros Hobj Hh. unfold fetch_stock_data_try.
  rewrite Hobj, bind_lift_Ok.
  destruct (info obj) as [i|e']; [|eexists; reflexivity].
  rewrite bind_lift_Ok, Hh. eexists. reflexivity.
Qed.

Lemma fetch_stock_data_try_short_history ticker obj data :
  yf_Ticker ticker = Ok obj -> history obj = Ok data ->
  (length data < 50)%nat ->
  exists e', fetch_stock_data_try math_exp yf_Ticker ticker = (Raise e', []).
Proof.
  intros Hobj Hh Hlen. unfold fetch_stock_data_try.
  rewrite Hobj, bind_lift_Ok.
  destruct (info obj) as [i|e']; [|eexists; reflexivity].
  rewrite bind_lift_Ok, Hh, bind_lift_Ok.
  replace (length data <? 50)%nat with true
    by (symmetry; apply Nat.ltb_lt; lia).
  rewrite orb_true_r. eexists. reflexivity.
Qed.

Lemma fetch_stock_data_success ticker r l :
  fetch_stock_data_try math_exp yf_Ticker ticker = (Ok r, l) ->
  fetch_stock_data math_exp yf_Ticker ticker = (Ok r, l).
Proof. unfold fetch_stock_data, try_except. intros ->. reflexivity. Qed.

Lemma fetch_stock_data_failure ticker e l :
  fetch_stock_data_try math_exp yf_Ticker ticker = (Raise e, l) ->
  fetch_stock_data math_exp yf_Ticker ticker =
  (Ok (fallback ticker), l ++ [LogFetchError ticker e]).
Proof. unfold fetch_stock_data, try_except. intros ->. reflexivity. Qed.

(** The scorer has two paths and both return. *)
Lemma fetch_stock_data_cases ticker :
  (exists r l,
     fetch_stock_data_try math_exp yf_Ticker ticker = (Ok r, l) /\
     fetch_stock_data math_exp yf_Ticker ticker = (Ok r, l)) \/
  (exists e l,
     fetch_stock_data_try math_exp yf_Ticker ticker = (Raise e, l) /\
     fetch_stock_data math_exp yf_Ticker ticker =
     (Ok (fallback ticker), l ++ [LogFetchError ticker e])).
Proof.
  destruct (fetch_stock_data_try math_exp yf_Ticker ticker) as [[r|e] l] eqn:E.
  - left. exists r, l. split; [reflexivity|].
    apply fetch_stock_data_success, E.
  - right. exists e, l. split; [reflexivity|].
    apply fetch_stock_data_failure, E.
Qed.

End ScorerFacts.

Section ScorerClaims.

Variable math_exp : float -> float.
Variable yf_Ticker : string -> result TickerObj.

(** C1, as amended.  Every record the scorer returns on the success
    path has [Bonus] at least 1.0, whatever prices the provider sent. *)
Theorem success_Bonus_ge_one ticker r l :
  fetch_stock_data_try math_exp yf_Ticker ticker = (Ok r, l) ->
  fetch_stock_data math_exp yf_Ticker ticker = (Ok r, l) /\
  (1 <=? Bonus r) = true.
Proof.
  intros H. split; [apply fetch_stock_data_success, H|].
  apply fetch_stock_data_try_Ok in H as (c & cp & ma & s & H).
  apply (f_equal fst) in H. cbn [fst] in H. subst r.
  rewrite validate_result_fst. cbn [Bonus assemble].
  apply bonus_of_validated_ge_one.
Qed.

(** C2.  The scorer always returns a record; when the [try] block
    raised, the record has the ticker as [Ticker] and as [Company], no
    [CurrentPrice] and no [MA50], and 0.0 as [DistancePct] and as
    [Score]. *)
Theorem fetch_stock_data_total ticker :
  exists r l,
    fetch_stock_data math_exp yf_Ticker ticker = (Ok r, l) /\
    (fetch_stock_data_try math_exp yf_Ticker ticker = (Ok r, l) \/
     (exists e l0,
        fetch_stock_data_try math_exp yf_Ticker ticker = (Raise e, l0)) /\
     Ticker r = ticker /\ Company r = ticker /\
     CurrentPrice r = None /\ MA50 r = None /\
     DistancePct r = 0 /\ Score r = 0).
Proof.
  destruct (fetch_stock_data_cases math_exp yf_Ticker ticker)
    as [(r & l & Htry & Hf)|(e & l & Htry & Hf)].
  - exists r, l. split; [assumption|]. left. assumption.
  - exists (fallback ticker), (l ++ [LogFetchError ticker e]).
    split; [assumption|]. right. split; [eauto|]. repeat split.
Qed.

(** C3, as amended.  A record returned on the success path is the
    output of the validator on the assembled dictionary, with the
    validator's log; on the failure path the fallback dictionary is
    returned as the handler built it, and it is no output of the
    validator. *)
Theorem validated_unless_fallback ticker :
  (exists company_name current_price ma50_latest slope r l,
     validate_result
       (assemble math_exp ticker company_name current_price ma50_latest slope)
     = (r, l) /\
     fetch_stock_data math_exp yf_Ticker ticker = (Ok r, l)) \/
  (exists e l,
     fetch_stock_data_try math_exp yf_Ticker ticker = (Raise e, l) /\
     fetch_stock_data math_exp yf_Ticker ticker =
     (Ok (fallback ticker), l ++ [LogFetchError ticker e]) /\
     forall raw, fst (validate_result raw) <> fallback ticker).
Proof.
  destruct (fetch_stock_data_cases math_exp yf_Ticker ticker)
    as [(r & l & Htry & Hf)|(e & l & Htry & Hf)].
  - left. apply fetch_stock_data_try_Ok in Htry as (c & cp & ma & s & H).
    exists c, cp, ma, s, r, l. split; assumption.
  - right. exists e, l. repeat split; try assumption.
    apply validate_result_never_fallback.
Qed.


(** The three facts about [math.exp] that the statement on [Proximity]
    rests on: [exp(-0.0)] is 1, [exp] is never below 0, and it is not
    above 1 on an argument that is not above 0. *)
Hypothesis exp_neg_zero : math_exp (- 0) = 1.
Hypothesis exp_not_negative : forall x, (math_exp x <? 0) = false.
Hypothesis exp_at_most_one :
  forall x, (0 <? x) = false -> (1 <? math_exp x) = false.

Lemma proximity_of_in_range d :
  clamped (proximity_of math_exp d) = proximity_of math_exp d.
Proof.
  unfold clamped, proximity_of.
  rewrite exp_not_negative, exp_at_most_one; [reflexivity|].
  apply proximity_arg_not_positive.
Qed.

(** C9.  On the success path [Proximity] is the exponential of
    [-d^2 / (2 * 0.03^2)] for [d] the record's [DistancePct]; it is
    exactly 1.0 when [d] is zero, as it is when the current price is
    the moving average (a finite value other than zero). *)
Theorem success_Proximity ticker r l :
  fetch_stock_data_try math_exp yf_Ticker ticker = (Ok r, l) ->
  let d := DistancePct r in
  Proximity r = math_exp (- (d * d) / (2 * (sigma * sigma))) /\
  ((d =? 0) = true -> Proximity r = 1) /\
  (forall p, CurrentPrice r = Some p -> MA50 r = Some p ->
             (neg_infinity <? p) = true -> (p <? infinity) = true ->
             (p =? 0) = false -> Proximity r = 1).
Proof.
  intros H.
  apply fetch_stock_data_try_Ok in H as (c & cp & ma & s & H).
  apply (f_equal fst) in H. cbn [fst] in H. subst r.
  rewrite validate_result_fst.
  cbn [DistancePct Proximity CurrentPrice MA50 assemble].
  rewrite proximity_of_in_range. unfold proximity_of.
  assert (Hz : (distance cp ma =? 0) = true ->
               math_exp (- (distance cp ma * distance cp ma)
                         / (2 * (sigma * sigma))) = 1).
  { intros Hd. rewrite (proximity_arg_zero Hd). apply exp_neg_zero. }
  split; [reflexivity|]. split; [exact Hz|].
  intros p Hcp Hma Hlo Hhi Hnz. injection Hcp as ->. injection Hma as ->.
  apply Hz, distance_self; assumption.
Qed.

End ScorerClaims.

(** *** The scorer on the sample data *)

Lemma exp_step_neg_zero : exp_step (- 0) = 1.
Proof. reflexivity. Qed.

Lemma exp_step_not_negative x : (exp_step x <? 0) = false.
Proof. unfold exp_step. destruct (0 <? x); reflexivity. Qed.

Lemma exp_step_at_most_one x :
  (0 <? x) = false -> (1 <? exp_step x) = false.
Proof. unfold exp_step. intros ->. reflexivity. Qed.

Lemma flat_closes_scored :
  fetch_stock_data_try exp_step (yf_history flat_closes) "KDP"
  = (Ok (scored "KDP" 1), []).
Proof. vm_compute. reflexivity. Qed.

Lemma success_Bonus_ge_one_witness :
  fetch_stock_data_try exp_step (yf_history flat_closes) "KDP"
  = (Ok (scored "KDP" 1), []) /\
  fetch_stock_data exp_step (yf_history flat_closes) "KDP"
  = (Ok (scored "KDP" 1), []) /\
  (1 <=? Bonus (scored "KDP" 1)) = true.
Proof.
  split; [exact flat_closes_scored|].
  exact (@success_Bonus_ge_one exp_step (yf_history flat_closes) "KDP"
           (scored "KDP" 1) [] flat_closes_scored).
Defined.

(** The claim C1 fails on the failure path: when the history request
    raises, the record returned has [Bonus] 0.0, which is below 1.0. *)
Lemma fallback_Bonus_is_zero :
  fetch_stock_data exp_step yf_history_down "KDP"
  = (Ok (fallback "KDP"), [LogFetchError "KDP" (ProviderError "history")]) /\
  Bonus (fallback "KDP") = 0 /\
  (1 <=? Bonus (fallback "KDP")) = false.
Proof. repeat split. Qed.

(** The claim C3 fails on the failure path: the record returned when
    the history request raises is no output of the validator; the
    validator would have set its [Bonus] to 1.0 and logged two
    anomalies. *)
Lemma fallback_not_validated :
  fetch_stock_data exp_step yf_history_down "KDP"
  = (Ok (fallback "KDP"), [LogFetchError "KDP" (ProviderError "history")]) /\
  (forall raw, fst (validate_result raw) <> fallback "KDP") /\
  validate_result (fallback "KDP")
  = (set_Bonus (fallback "KDP") 1,
     [LogBadPrices "KDP" None None; LogBonus "KDP" 0]).
Proof.
  split; [reflexivity|]. split; [|reflexivity].
  intros raw. apply validate_result_never_fallback.
Qed.



Lemma success_Proximity_witness :
  exp_step (- 0) = 1 /\
  (forall x, (exp_step x <? 0) = false) /\
  (forall x, (0 <? x) = false -> (1 <? exp_step x) = false) /\
  fetch_stock_data_try exp_step (yf_history flat_closes) "KDP"
  = (Ok (scored "KDP" 1), []) /\
  Proximity (scored "KDP" 1) = 1.
Proof.
  split; [exact exp_step_neg_zero|].
  split; [exact exp_step_not_negative|].
  split; [exact exp_step_at_most_one|].
  split; [exact flat_closes_scored|].
  exact (proj1 (proj2
           (@success_Proximity exp_step (yf_history flat_closes)
              exp_step_neg_zero exp_step_not_negative exp_step_at_most_one
              "KDP" (scored "KDP" 1) [] flat_closes_scored))
           eq_refl).
Defined.


(** ** The allocator *)

Section Allocator.

Variable monthly_capital : float.

Lemma Score_column_nonempty data :
  data <> [] ->
  DataFrame.Score_column (DataFrame.of_records data) = Ok (map Score data).
Proof. destruct data; [congruence|reflexivity]. Qed.

Lemma filter_positive_nonempty data :
  Exists (fun r => (0 <? Score r) = true) data ->
  filter (fun r => 0 <? Score r) data <> [].
Proof.
  intros H. apply Exists_exists in H as (r & Hin & Hr).
  intros E. assert (Hf : In r (filter (fun r => 0 <? Score r) data))
    by (apply filter_In; split; assumption).
  rewrite E in Hf. exact Hf.
Qed.

Lemma filter_positive_scores data :
  Forall (fun x => (0 <? x) = true)
         (map Score (filter (fun r => 0 <? Score r) data)).
Proof.
  apply Forall_forall. intros x Hx.
  apply in_map_iff in Hx as (r & <- & Hr). apply filter_In in Hr. apply Hr.
Qed.



(** C6.  On the empty list the allocator raises: the frame built from
    no dictionary has no [Score] column to filter on. *)
Theorem allocate_investment_empty_raises :
  allocate_investment [] monthly_capital = (Raise (KeyError "Score"), []).
Proof. reflexivity. Qed.

(** On a list that is not empty and has no score above 0 the allocator
    returns the empty list and logs nothing. *)
Lemma allocate_investment_no_positive data :
  data <> [] -> Forall (fun r => (Score r <=? 0) = true) data ->
  allocate_investment data monthly_capital = (Ok [], []).
Proof.
  intros Hne H. unfold allocate_investment.
  rewrite Score_column_nonempty, bind_lift_Ok by assumption.
  cbn [DataFrame.rows DataFrame.of_records].
  replace (filter (fun r => 0 <? Score r) data) with (@nil ScoreResult);
    [reflexivity|].
  symmetry. clear Hne. induction H as [|r data Hr _ IH]; [reflexivity|].
  simpl. rewrite (leb_true_ltb_false Hr). exact IH.
Qed.

End Allocator.

(** *** The allocator on sample records *)


(** Scores 2 and 1 with a capital of 300: the amounts are 200 and 100,
    and the percentages add up to 1 within 1e-9. *)
Example allocation_two_to_one :
  exists out,
    allocate_investment [scored "A" 2; scored "B" 1; scored "C" 0] 300
    = (Ok out, []) /\
    map AllocationPLN out = [200; 100] /\
    (abs (Np.sum (map AllocationPct out) - 1) <=? 1e-9) = true.
Proof. eexists. split; [vm_compute; reflexivity|]. split; reflexivity. Qed.


(** * Further properties *)

(** ** NaN and the order *)

Section NaN.

Lemma SFcompare_refl x : x <> S754_nan -> SFcompare x x = Some Eq.
Proof.
  destruct x as [s|s| |s m e]; simpl; intros H; try reflexivity;
    try congruence.
  - destruct s; reflexivity.
  - destruct s; rewrite Z.compare_refl, Pos.compare_cont_refl; reflexivity.
Qed.

Lemma Prim2SF_nan_iff x : Prim2SF x = S754_nan <-> is_nan x = true.
Proof.
  unfold is_nan. rewrite eqb_spec. unfold SFeqb. split.
  - intros ->. reflexivity.
  - intros H. destruct (Prim2SF x) as [s|s| |s m e] eqn:E; try reflexivity;
      rewrite SFcompare_refl in H by discriminate; discriminate.
Qed.

Lemma not_nan_Prim2SF x : is_nan x = false -> Prim2SF x <> S754_nan.
Proof.
  intros H E. apply Prim2SF_nan_iff in E. congruence.
Qed.

Lemma ltb_nan_l x y : is_nan x = true -> (x <? y) = false.
Proof.
  intros H. apply Prim2SF_nan_iff in H. rewrite ltb_spec, H. reflexivity.
Qed.

Lemma ltb_nan_r x y : is_nan y = true -> (x <? y) = false.
Proof.
  intros H. apply Prim2SF_nan_iff in H. rewrite ltb_spec, H.
  unfold SFltb. destruct (Prim2SF x); reflexivity.
Qed.

Lemma ltb_asym x y : (x <? y) = true -> (y <? x) = false.
Proof.
  rewrite !ltb_spec. unfold SFltb.
  rewrite (SFcompare_antisym (Prim2SF x) (Prim2SF y)).
  destruct (SFcompare (Prim2SF x) (Prim2SF y)) as [[]|]; simpl; congruence.
Qed.

Lemma ltb_true_not_nan_l x y : (x <? y) = true -> is_nan x = false.
Proof.
  intros H. destruct (is_nan x) eqn:E; [|reflexivity].
  rewrite (@ltb_nan_l x y E) in H. discriminate.
Qed.

Lemma ltb_true_not_nan_r x y : (x <? y) = true -> is_nan y = false.
Proof.
  intros H. destruct (is_nan y) eqn:E; [|reflexivity].
  rewrite (@ltb_nan_r x y E) in H. discriminate.
Qed.

(** Away from NaN, what is not below is at least. *)
Lemma not_ltb_leb x y :
  is_nan x = false -> is_nan y = false -> (x <? y) = false -> (y <=? x) = true.
Proof.
  intros Hx Hy. apply ltb_false_leb_true; apply not_nan_Prim2SF; assumption.
Qed.

Lemma leb_not_eqb_ltb x y :
  (x <=? y) = true -> (y =? x) = false -> (x <? y) = true.
Proof.
  rewrite leb_spec, eqb_spec, ltb_spec. unfold SFleb, SFeqb, SFltb.
  rewrite (SFcompare_antisym (Prim2SF x) (Prim2SF y)).
  destruct (SFcompare (Prim2SF x) (Prim2SF y)) as [[]|]; simpl; congruence.
Qed.

End NaN.

(** ** More on the validator *)

Section ValidatorRanges.

Lemma clamped_range x :
  is_nan (clamped x) = true \/
  ((0 <=? clamped x) = true /\ (clamped x <=? 1) = true).
Proof.
  unfold clamped, Py.max, Py.min.
  destruct (1 <? x) eqn:E1.
  - rewrite orb_true_r. right. split; reflexivity.
  - rewrite orb_false_r. destruct (x <? 0) eqn:E0.
    + rewrite (ltb_asym E0). right. split; reflexivity.
    + destruct (is_nan x) eqn:En; [left; reflexivity|]. right. split.
      * apply not_ltb_leb; [assumption|reflexivity|assumption].
      * apply not_ltb_leb; [reflexivity|assumption|assumption].
Qed.

Lemma raised_to_one_range x :
  is_nan (raised_to_one x) = true \/ (1 <=? raised_to_one x) = true.
Proof.
  unfold raised_to_one. destruct (x <? 1) eqn:E; [right; reflexivity|].
  destruct (is_nan x) eqn:En; [left; reflexivity|]. right.
  apply not_ltb_leb; [assumption|reflexivity|assumption].
Qed.

Lemma checked_score_finite cp ma s :
  is_nan (checked_score cp ma s) = false /\
  is_infinity (checked_score cp ma s) = false.
Proof.
  unfold checked_score, Py.isnan, Py.isinf.
  destruct (Py.none_or_nonpositive cp ma); [split; reflexivity|].
  destruct (is_nan s || is_infinity s) eqn:E; [split; reflexivity|].
  apply orb_false_iff in E. exact E.
Qed.

Lemma clamped_nan x : is_nan x = true -> clamped x = x.
Proof.
  intros H. unfold clamped.
  rewrite (@ltb_nan_l x 0 H), (@ltb_nan_r 1 x H). reflexivity.
Qed.

Lemma raised_to_one_nan x : is_nan x = true -> raised_to_one x = x.
Proof. intros H. unfold raised_to_one. rewrite (@ltb_nan_l x 1 H). reflexivity. Qed.

End ValidatorRanges.

(** X1.  What the validator guarantees of any record: [Flatness] and
    [Proximity] are NaN or lie in [0, 1], [Bonus] is NaN or at least 1,
    and [Score] is neither NaN nor infinite. *)
Theorem validate_result_ranges (r : ScoreResult) :
  let r' := fst (validate_result r) in
  (is_nan (Flatness r') = true \/
   ((0 <=? Flatness r') = true /\ (Flatness r' <=? 1) = true)) /\
  (is_nan (Proximity r') = true \/
   ((0 <=? Proximity r') = true /\ (Proximity r' <=? 1) = true)) /\
  (is_nan (Bonus r') = true \/ (1 <=? Bonus r') = true) /\
  is_nan (Score r') = false /\ is_infinity (Score r') = false.
Proof.
  cbv zeta. rewrite validate_result_fst.
  cbn [Flatness Proximity Bonus Score].
  split; [apply clamped_range|]. split; [apply clamped_range|].
  split; [apply raised_to_one_range|]. apply checked_score_finite.
Qed.

(** X2.  The validator does not repair NaN outside [Score]: a NaN in
    [Flatness], [Proximity] or [Bonus] is returned as it came. *)
Theorem validate_result_keeps_nan (r : ScoreResult) :
  (is_nan (Flatness r) = true ->
   Flatness (fst (validate_result r)) = Flatness r) /\
  (is_nan (Proximity r) = true ->
   Proximity (fst (validate_result r)) = Proximity r) /\
  (is_nan (Bonus r) = true ->
   Bonus (fst (validate_result r)) = Bonus r).
Proof.
  rewrite validate_result_fst. cbn [Flatness Proximity Bonus].
  split; [apply clamped_nan|]. split; [apply clamped_nan|].
  apply raised_to_one_nan.
Qed.

Lemma validate_result_keeps_nan_witness :
  is_nan (Proximity nan_proximity) = true /\
  is_nan (Proximity (fst (validate_result nan_proximity))) = true /\
  Score (fst (validate_result nan_proximity)) = 0.
Proof.
  split; [reflexivity|]. split; [|reflexivity].
  rewrite (proj1 (proj2 (validate_result_keeps_nan nan_proximity)) eq_refl).
  reflexivity.
Defined.

(** X3.  The validator never writes the ticker, the company, the two
    prices or the distance. *)
Theorem validate_result_frame (r : ScoreResult) :
  let r' := fst (validate_result r) in
  Ticker r' = Ticker r /\ Company r' = Company r /\
  CurrentPrice r' = CurrentPrice r /\ MA50 r' = MA50 r /\
  DistancePct r' = DistancePct r.
Proof. cbv zeta. rewrite validate_result_fst. repeat split. Qed.

(** X4.  When the validator logs nothing it has changed nothing. *)
Theorem validate_result_silent (r : ScoreResult) :
  snd (validate_result r) = [] -> validate_result r = (r, []).
Proof.
  destruct r. unfold validate_result.
  repeat (cbn; match goal with
               | |- context [if ?c then _ else _] => destruct c
               end);
    cbn; intros H; try discriminate H; reflexivity.
Qed.

Lemma validate_result_silent_witness :
  snd (validate_result (scored "KDP" 1)) = [] /\
  validate_result (scored "KDP" 1) = (scored "KDP" 1, []).
Proof.
  split; [reflexivity|].
  exact (@validate_result_silent (scored "KDP" 1) eq_refl).
Defined.

(** ** More on the scorer *)

Section ScorerPaths.

Variable math_exp : float -> float.
Variable yf_Ticker : string -> result TickerObj.

(** What a return of the [try] block tells about the provider's answer
    and about the record returned. *)
Lemma fetch_stock_data_try_Ok_inv ticker r l :
  fetch_stock_data_try math_exp yf_Ticker ticker = (Ok r, l) ->
  exists obj i data current_price ma50_latest slope,
    yf_Ticker ticker = Ok obj /\ info obj = Ok i /\ history obj = Ok data /\
    (50 <= length data)%nat /\
    let close := map Close (Pd.sort_index data) in
    let ma50_series := Pd.dropna (Pd.rolling_mean 50 close) in
    ma50_series <> [] /\
    Pd.iloc_neg close 1 = Ok current_price /\
    Pd.iloc_neg ma50_series 1 = Ok ma50_latest /\
    slope_of ma50_series ma50_latest = (Ok slope, []) /\
    validate_result
      (assemble math_exp ticker (company_name_of i ticker)
                current_price ma50_latest slope) = (r, l).
Proof.
  unfold fetch_stock_data_try.
  destruct (yf_Ticker ticker) as [obj|e];
    [rewrite bind_lift_Ok|discriminate].
  destruct (info obj) as [i|e] eqn:Hi; [rewrite bind_lift_Ok|discriminate].
  destruct (history obj) as [data|e] eqn:Hh;
    [rewrite bind_lift_Ok|discriminate].
  destruct ((length data =? 0)%nat || (length data <? 50)%nat) eqn:Hlen;
    [discriminate|].
  apply orb_false_iff in Hlen as [_ Hlen]. apply Nat.ltb_ge in Hlen.
  destruct (length (Pd.dropna _) =? 0)%nat eqn:Hma; [discriminate|].
  apply Nat.eqb_neq in Hma.
  destruct (Pd.iloc_neg (map Close (Pd.sort_index data)) 1) as [cp|e] eqn:Hcp;
    [rewrite bind_lift_Ok|discriminate].
  destruct (Pd.iloc_neg (Pd.dropna _) 1) as [ma|e] eqn:Hm;
    [rewrite bind_lift_Ok|discriminate].
  rewrite slope_of_spec, bind_Ok. unfold writer.
  match goal with |- context [validate_result ?x] =>
    destruct (validate_result x) as [r' l'] eqn:E end.
  cbn. intros H. injection H as -> ->.
  exists obj, i, data, cp, ma. eexists.
  repeat (split; [first [reflexivity | eassumption]|]).
  split; [intros E0; rewrite E0 in Hma; apply Hma; reflexivity|].
  split; [exact Hcp|]. split; [exact Hm|].
  split; [apply slope_of_spec|]. exact E.
Qed.

(** When the [try] block raises it has logged nothing: the validator,
    the only writer of log entries in the block, has not run. *)
Lemma fetch_stock_data_try_Raise ticker e l :
  fetch_stock_data_try math_exp yf_Ticker ticker = (Raise e, l) -> l = [].
Proof.
  unfold fetch_stock_data_try.
  destruct (yf_Ticker ticker) as [obj|e0];
    [rewrite bind_lift_Ok|intros H; injection H as _ <-; reflexivity].
  destruct (info obj) as [i|e0];
    [rewrite bind_lift_Ok|intros H; injection H as _ <-; reflexivity].
  destruct (history obj) as [data|e0];
    [rewrite bind_lift_Ok|intros H; injection H as _ <-; reflexivity].
  destruct ((length data =? 0)%nat || (length data <? 50)%nat);
    [intros H; injection H as _ <-; reflexivity|].
  destruct (length (Pd.dropna _) =? 0)%nat;
    [intros H; injection H as _ <-; reflexivity|].
  destruct (Pd.iloc_neg (map Close (Pd.sort_index data)) 1) as [cp|e0];
    [rewrite bind_lift_Ok|intros H; injection H as _ <-; reflexivity].
  destruct (Pd.iloc_neg (Pd.dropna _) 1) as [ma|e0];
    [rewrite bind_lift_Ok|intros H; injection H as _ <-; reflexivity].
  rewrite slope_of_spec, bind_Ok. unfold writer. discriminate.
Qed.

(** X5.  The scorer takes the success path exactly when the provider
    answers the name lookup and the history request, the history has
    at least 50 rows, and the moving average of the closes, taken in
    the order of their dates, has a value that is not NaN. *)
Theorem success_path_iff ticker :
  (exists r l, fetch_stock_data_try math_exp yf_Ticker ticker = (Ok r, l)) <->
  (exists obj i data,
     yf_Ticker ticker = Ok obj /\ info obj = Ok i /\ history obj = Ok data /\
     (50 <= length data)%nat /\
     Pd.dropna (Pd.rolling_mean 50 (map Close (Pd.sort_index data))) <> []).
Proof.
  split.
  - intros (r & l & H).
    apply fetch_stock_data_try_Ok_inv in H
      as (obj & i & data & cp & ma & s & Ho & Hi & Hh & Hlen & Hma & _).
    exists obj, i, data. repeat split; assumption.
  - intros (obj & i & data & Ho & Hi & Hh & Hlen & Hma).
    destruct (fetch_stock_data_try_success math_exp yf_Ticker ticker
                Ho Hi Hh Hlen Hma) as (cp & ma & s & _ & _ & _ & Htry).
    rewrite Htry. unfold writer. eauto.
Qed.

Lemma fetch_stock_data_failure_log ticker e l :
  fetch_stock_data_try math_exp yf_Ticker ticker = (Raise e, l) ->
  fetch_stock_data math_exp yf_Ticker ticker =
  (Ok (fallback ticker), [LogFetchError ticker e]).
Proof.
  intros H. pose proof (fetch_stock_data_try_Raise ticker H) as ->.
  apply (fetch_stock_data_failure math_exp yf_Ticker ticker H).
Qed.

(** X6.  When the scorer fails it writes exactly one log entry, which
    carries the ticker and the exception, and returns the fallback
    record. *)
Theorem failure_logs_once ticker e l :
  fetch_stock_data_try math_exp yf_Ticker ticker = (Raise e, l) ->
  fetch_stock_data math_exp yf_Ticker ticker =
  (Ok (fallback ticker), [LogFetchError ticker e]) /\ l = [].
Proof.
  intros H. split; [apply (fetch_stock_data_failure_log ticker H)|].
  apply (fetch_stock_data_try_Raise ticker H).
Qed.

(** X7.  A history of fewer than 50 rows (an empty one included) makes
    the scorer return the fallback record and log a [ValueError] that
    names the ticker. *)
Theorem short_history_fallback ticker obj i data :
  yf_Ticker ticker = Ok obj -> info obj = Ok i -> history obj = Ok data ->
  (length data < 50)%nat ->
  fetch_stock_data math_exp yf_Ticker ticker =
  (Ok (fallback ticker),
   [LogFetchError ticker (ValueError ("Za mało danych dla " ++ ticker)%string)]).
Proof.
  intros Ho Hi Hh Hlen. apply (@fetch_stock_data_failure_log ticker _ []).
  unfold fetch_stock_data_try.
  rewrite Ho, bind_lift_Ok, Hi, bind_lift_Ok, Hh, bind_lift_Ok.
  replace (length data <? 50)%nat with true
    by (symmetry; apply Nat.ltb_lt; lia).
  rewrite orb_true_r. reflexivity.
Qed.

End ScorerPaths.

Lemma failure_logs_once_witness :
  fetch_stock_data_try exp_step yf_history_down "KDP"
  = (Raise (ProviderError "history"), []) /\
  fetch_stock_data exp_step yf_history_down "KDP"
  = (Ok (fallback "KDP"), [LogFetchError "KDP" (ProviderError "history")]).
Proof.
  split; [reflexivity|].
  exact (proj1 (@failure_logs_once exp_step yf_history_down "KDP"
                  (ProviderError "history") [] eq_refl)).
Defined.

Lemma short_history_fallback_witness :
  (length (rows_of short_closes) < 50)%nat /\
  fetch_stock_data exp_step (yf_history short_closes) "KDP"
  = (Ok (fallback "KDP"),
     [LogFetchError "KDP" (ValueError "Za mało danych dla KDP")]).
Proof.
  assert (H : (length (rows_of short_closes) < 50)%nat)
    by (vm_compute; lia).
  split; [exact H|].
  exact (@short_history_fallback exp_step (yf_history short_closes) "KDP"
           _ unnamed (rows_of short_closes) eq_refl eq_refl eq_refl H).
Defined.

(** ** Values that are not below zero *)

Section NotNegative.

Lemma SFsigned_not_negative x : SFsigned false x -> SFnot_negative x.
Proof. destruct x; simpl; auto. Qed.

Lemma SFpositive_not_negative x : SFpositive x -> SFnot_negative x.
Proof.
  destruct x as [s|s| |s m e]; try destruct s; simpl; intros H;
    try contradiction; try exact I; reflexivity.
Qed.

Lemma ltb_zero_false_iff x :
  (x <? 0) = false <-> SFnot_negative (Prim2SF x).
Proof.
  rewrite ltb_spec, Prim2SF_zero.
  destruct (Prim2SF x) as [s|s| |s m e]; try (destruct s);
    cbv [SFltb SFcompare SFnot_negative]; intuition congruence.
Qed.

Lemma SFmul_not_negative x y :
  SFnot_negative x -> SFnot_negative y -> SFnot_negative (SF64mul x y).
Proof.
  destruct x as [sx|sx| |sx mx ex], y as [sy|sy| |sy my ey]; simpl;
    intros Hx Hy; subst; try exact I; try reflexivity.
  apply SFsigned_not_negative, binary_round_aux_signed. lia.
Qed.

Lemma SFadd_finite_signed_false m e y :
  SFsigned false y -> SFsigned false (SF64add (S754_finite false m e) y).
Proof.
  destruct y as [s|s| |s my ey]; try contradiction.
  - intros _. reflexivity.
  - simpl. auto.
  - simpl SFsigned at 1. intros ->.
    unfold SF64add, SFadd, cond_Zopp. cbn [Z.add binary_normalize].
    unfold binary_round. destruct (shl_align _ _ _) as [mz ez].
    apply binary_round_aux_signed. lia.
Qed.

Lemma bonus_of_signed d : SFsigned false (Prim2SF (bonus_of d)).
Proof.
  unfold bonus_of. destruct (d <? 0) eqn:Hd; [|rewrite Prim2SF_one; reflexivity].
  apply ltb_zero_negative in Hd.
  rewrite add_spec, mul_spec, Prim2SF_one.
  change (Prim2SF gamma) with (S754_finite false 4503599627370496 (-52)).
  apply SFadd_finite_signed_false, SFmul_finite_positive, Hd.
Qed.

Lemma Py_max_zero_not_nan y : is_nan (Py.max 0 y) = false.
Proof.
  unfold Py.max. destruct (0 <? y) eqn:E; [|reflexivity].
  apply (ltb_true_not_nan_r E).
Qed.

Lemma flatness_of_not_negative slope :
  SFnot_negative (Prim2SF (flatness_of slope)).
Proof.
  unfold flatness_of, Py.max. destruct (0 <? _) eqn:E.
  - apply SFpositive_not_negative, ltb_zero_positive, E.
  - rewrite Prim2SF_zero. exact I.
Qed.

Lemma clamped_not_nan x : is_nan x = false -> is_nan (clamped x) = false.
Proof.
  intros H. unfold clamped, Py.max, Py.min.
  destruct (1 <? x); [rewrite orb_true_r; reflexivity|].
  rewrite orb_false_r. destruct (x <? 0); [|assumption].
  destruct (0 <? x); [assumption|reflexivity].
Qed.

End NotNegative.

Section ScorerRanges.

Variable math_exp : float -> float.
Variable yf_Ticker : string -> result TickerObj.

(** X9.  Every record the scorer returns, on either path and whatever
    the provider sent, has [Flatness] in [0, 1] (never NaN) and a
    [Score] that is neither NaN nor infinite. *)
Theorem fetch_stock_data_ranges ticker :
  exists r l,
    fetch_stock_data math_exp yf_Ticker ticker = (Ok r, l) /\
    (0 <=? Flatness r) = true /\ (Flatness r <=? 1) = true /\
    is_nan (Score r) = false /\ is_infinity (Score r) = false.
Proof.
  destruct (fetch_stock_data_cases math_exp yf_Ticker ticker)
    as [(r & l & Htry & Hf)|(e & l & Htry & Hf)].
  - exists r, l. split; [assumption|].
    apply fetch_stock_data_try_Ok in Htry as (c & cp & ma & s & H).
    apply (f_equal fst) in H. cbn [fst] in H. subst r.
    rewrite validate_result_fst. cbn [Flatness Score assemble].
    pose proof (@clamped_not_nan (flatness_of s)
                  (Py_max_zero_not_nan (1 - abs s / threshold))) as Hn.
    destruct (clamped_range (flatness_of s)) as [Hc|[H0 H1]]; [congruence|].
    split; [assumption|]. split; [assumption|]. apply checked_score_finite.
  - eexists. eexists. split; [eassumption|]. repeat split.
Qed.

(** X11.  A record returned with [Score > 0] comes from the success
    path and has both prices present and not at or below zero: a
    ticker whose data could not be fetched or whose prices are unusable
    never has a positive score. *)
Theorem positive_score_usable_prices ticker r l :
  fetch_stock_data math_exp yf_Ticker ticker = (Ok r, l) ->
  (0 <? Score r) = true ->
  fetch_stock_data_try math_exp yf_Ticker ticker = (Ok r, l) /\
  exists cp ma50,
    CurrentPrice r = Some cp /\ MA50 r = Some ma50 /\
    (cp <=? 0) = false /\ (ma50 <=? 0) = false.
Proof.
  intros Hf Hs.
  destruct (fetch_stock_data_cases math_exp yf_Ticker ticker)
    as [(r' & l' & Htry & Hf')|(e & l' & Htry & Hf')];
    rewrite Hf in Hf'; injection Hf' as -> ->.
  - split; [assumption|].
    apply fetch_stock_data_try_Ok in Htry as (c & cp & ma & s & H).
    apply (f_equal fst) in H. cbn [fst] in H. subst r'.
    rewrite validate_result_fst in *.
    cbn [CurrentPrice MA50 Score assemble] in *.
    exists cp, ma. split; [reflexivity|]. split; [reflexivity|].
    unfold checked_score, Py.none_or_nonpositive in Hs.
    destruct ((cp <=? 0) || (ma <=? 0)) eqn:E; [discriminate Hs|].
    apply orb_false_iff in E. exact E.
  - discriminate Hs.
Qed.

(** The one fact about [math.exp] that the sign of the score rests on. *)
Hypothesis exp_not_negative : forall x, (math_exp x <? 0) = false.

Lemma raw_score_not_negative slope d :
  ((flatness_of slope * proximity_of math_exp d * bonus_of d) <? 0) = false.
Proof.
  apply ltb_zero_false_iff. rewrite !mul_spec.
  apply SFmul_not_negative; [apply SFmul_not_negative|].
  - apply flatness_of_not_negative.
  - apply ltb_zero_false_iff, exp_not_negative.
  - apply SFsigned_not_negative, bonus_of_signed.
Qed.

(** X10.  Every record the scorer returns has [Score >= 0], given that
    [math.exp] never returns a value below zero. *)
Theorem fetch_stock_data_Score_ge_zero ticker :
  exists r l,
    fetch_stock_data math_exp yf_Ticker ticker = (Ok r, l) /\
    (0 <=? Score r) = true.
Proof.
  destruct (fetch_stock_data_cases math_exp yf_Ticker ticker)
    as [(r & l & Htry & Hf)|(e & l & Htry & Hf)].
  - exists r, l. split; [assumption|].
    apply fetch_stock_data_try_Ok in Htry as (c & cp & ma & s & H).
    apply (f_equal fst) in H. cbn [fst] in H. subst r.
    rewrite validate_result_fst. cbn [Score CurrentPrice MA50 assemble].
    destruct (checked_score_finite (Some cp) (Some ma)
                (flatness_of s * proximity_of math_exp (distance cp ma)
                 * bonus_of (distance cp ma))) as [Hn _].
    apply not_ltb_leb; [assumption|reflexivity|].
    unfold checked_score.
    destruct (Py.none_or_nonpositive (Some cp) (Some ma)); [reflexivity|].
    destruct (Py.isnan _ || Py.isinf _); [reflexivity|].
    apply raw_score_not_negative.
  - eexists. eexists. split; [eassumption|reflexivity].
Qed.

End ScorerRanges.

Lemma positive_score_usable_prices_witness :
  fetch_stock_data exp_step (yf_history flat_closes) "KDP"
  = (Ok (scored "KDP" 1), []) /\
  (0 <? Score (scored "KDP" 1)) = true /\
  exists cp ma50,
    CurrentPrice (scored "KDP" 1) = Some cp /\
    MA50 (scored "KDP" 1) = Some ma50 /\
    (cp <=? 0) = false /\ (ma50 <=? 0) = false.
Proof.
  assert (H : fetch_stock_data exp_step (yf_history flat_closes) "KDP"
              = (Ok (scored "KDP" 1), [])) by (vm_compute; reflexivity).
  split; [exact H|]. split; [reflexivity|].
  exact (proj2 (@positive_score_usable_prices exp_step
                  (yf_history flat_closes) "KDP" (scored "KDP" 1) []
                  H eq_refl)).
Defined.

Lemma fetch_stock_data_Score_ge_zero_witness :
  (forall x, (exp_step x <? 0) = false) /\
  exists r l,
    fetch_stock_data exp_step (yf_history rising_closes) "KDP" = (Ok r, l) /\
    (0 <=? Score r) = true.
Proof.
  split; [exact exp_step_not_negative|].
  exact (@fetch_stock_data_Score_ge_zero exp_step
           (yf_history rising_closes) exp_step_not_negative "KDP").
Defined.

(** ** The moving average of a short history *)

Section ShortSeries.

Lemma dropna_length xs : (length (Pd.dropna xs) <= length xs)%nat.
Proof.
  unfold Pd.dropna. induction xs as [|x xs IH]; simpl; [lia|].
  destruct (negb (is_nan x)); simpl; lia.
Qed.

Lemma rolling_mean_head (f : nat -> float) k : forall a,
  (a + k <= 49)%nat ->
  Pd.dropna (map (fun i => if (S i <? 50)%nat then nan else f i) (seq a k))
  = [].
Proof.
  induction k as [|k IH]; intros a H; [reflexivity|].
  simpl seq. simpl map.
  replace (S a <? 50)%nat with true by (symmetry; apply Nat.ltb_lt; lia).
  unfold Pd.dropna in *. simpl. apply IH. lia.
Qed.

(** The first 49 positions of the moving average are NaN and are
    dropped. *)
Lemma ma50_series_length xs :
  (length (Pd.dropna (Pd.rolling_mean 50 xs)) <= length xs - 49)%nat.
Proof.
  unfold Pd.rolling_mean.
  set (f := fun i => Pd.mean (firstn 50 (skipn (S i - 50) xs))).
  change (fun i => if (S i <? 50)%nat then nan
                   else Pd.mean (firstn 50 (skipn (S i - 50) xs)))
    with (fun i => if (S i <? 50)%nat then nan else f i).
  destruct (Nat.le_gt_cases (length xs) 49) as [H|H].
  - rewrite rolling_mean_head by lia. simpl. lia.
  - replace (length xs) with (49 + (length xs - 49))%nat at 1 by lia.
    rewrite seq_app, map_app. unfold Pd.dropna. rewrite filter_app.
    fold (Pd.dropna (map (fun i => if (S i <? 50)%nat then nan else f i)
                         (seq 0 49))).
    rewrite rolling_mean_head by lia. simpl app.
    etransitivity; [apply dropna_length|].
    rewrite length_map, length_seq. lia.
Qed.

End ShortSeries.

Section ScorerEdges.

Variable math_exp : float -> float.
Variable yf_Ticker : string -> result TickerObj.

(** X12.  With fewer than 54 rows there are fewer than five moving
    averages, the slope is taken as 0, and a record returned on the
    success path has [Flatness] exactly 1.0. *)
Theorem few_rows_Flatness_one ticker obj data r l :
  yf_Ticker ticker = Ok obj -> history obj = Ok data ->
  (length data < 54)%nat ->
  fetch_stock_data_try math_exp yf_Ticker ticker = (Ok r, l) ->
  Flatness r = 1.
Proof.
  intros Ho Hh Hlen H.
  apply fetch_stock_data_try_Ok_inv in H
    as (obj' & i & data' & cp & ma & s & Ho' & Hi & Hh' & _ & _ & _ & _
        & Hs & Hv).
  rewrite Ho in Ho'. injection Ho' as <-.
  rewrite Hh in Hh'. injection Hh' as <-.
  rewrite slope_of_spec in Hs.
  replace (5 <=? _)%nat with false in Hs.
  2:{ symmetry. apply Nat.leb_gt.
      eapply Nat.le_lt_trans; [apply ma50_series_length|].
      rewrite length_map, sort_index_length. lia. }
  injection Hs as <-.
  apply (f_equal fst) in Hv. cbn [fst] in Hv. subst r.
  rewrite validate_result_fst. reflexivity.
Qed.

(** X14.  On the success path [Company] is the long name when it is
    there and not empty, else the short name when it is there and not
    empty, else the ticker. *)
Theorem company_name_priority ticker obj i r l :
  yf_Ticker ticker = Ok obj -> info obj = Ok i ->
  fetch_stock_data_try math_exp yf_Ticker ticker = (Ok r, l) ->
  (forall c s, longName i = Some (String c s) -> Company r = String c s) /\
  (Py.truthy (longName i) = false ->
   forall c s, shortName i = Some (String c s) -> Company r = String c s) /\
  (Py.truthy (longName i) = false -> Py.truthy (shortName i) = false ->
   Company r = ticker).
Proof.
  intros Ho Hi H.
  apply fetch_stock_data_try_Ok_inv in H
    as (obj' & i' & data & cp & ma & s & Ho' & Hi' & _ & _ & _ & _ & _
        & _ & Hv).
  rewrite Ho in Ho'. injection Ho' as <-.
  rewrite Hi in Hi'. injection Hi' as <-.
  apply (f_equal fst) in Hv. cbn [fst] in Hv. subst r.
  rewrite validate_result_fst. cbn [Company assemble].
  unfold company_name_of, Py.or_else. repeat split.
  - intros c s' ->. reflexivity.
  - intros Hl c s' ->. destruct (longName i); [rewrite Hl|]; reflexivity.
  - intros Hl Hs. destruct (longName i); [rewrite Hl|];
      (destruct (shortName i); [rewrite Hs|]); reflexivity.
Qed.




End ScorerEdges.

Lemma few_rows_Flatness_one_witness :
  (length (rows_of brief_closes) < 54)%nat /\
  fetch_stock_data_try exp_step (yf_history brief_closes) "KDP"
  = (Ok (scored "KDP" 1), []) /\
  Flatness (scored "KDP" 1) = 1.
Proof.
  assert (Hl : (length (rows_of brief_closes) < 54)%nat)
    by (vm_compute; lia).
  assert (H : fetch_stock_data_try exp_step (yf_history brief_closes) "KDP"
              = (Ok (scored "KDP" 1), [])) by (vm_compute; reflexivity).
  split; [exact Hl|]. split; [exact H|].
  exact (@few_rows_Flatness_one exp_step (yf_history brief_closes) "KDP"
           _ (rows_of brief_closes) (scored "KDP" 1) []
           eq_refl eq_refl Hl H).
Defined.

Lemma company_name_priority_witness :
  exists r,
    fetch_stock_data_try exp_step (yf_named flat_closes) "KDP" = (Ok r, []) /\
    Company r = "Keurig Dr Pepper Inc."%string.
Proof.
  eexists. split; [vm_compute; reflexivity|].
  refine (proj1 (@company_name_priority exp_step (yf_named flat_closes)
                   "KDP" _ named _ [] eq_refl eq_refl _) _ _ eq_refl).
  vm_compute. reflexivity.
Defined.

(** ** The order of the rows *)

Section RowOrder.

Lemma insert_row_perm r rows :
  Permutation (Pd.insert_row r rows) (r :: rows).
Proof.
  induction rows as [|r' rows IH]; simpl; [reflexivity|].
  destruct (Date r <? Date r')%Z; [reflexivity|].
  rewrite IH. apply perm_swap.
Qed.

Lemma sort_index_perm data : Permutation (Pd.sort_index data) data.
Proof.
  unfold Pd.sort_index.
  enough (H : forall acc,
             Permutation (fold_left (fun s r => Pd.insert_row r s) data acc)
                         (data ++ acc)).
  { rewrite H, app_nil_r. reflexivity. }
  induction data as [|r data IH]; intros acc; simpl; [reflexivity|].
  rewrite IH, insert_row_perm. symmetry. apply Permutation_middle.
Qed.

Lemma insert_row_sorted r rows :
  StronglySorted by_date rows ->
  StronglySorted by_date (Pd.insert_row r rows).
Proof.
  induction 1 as [|r' rows Hs IH Hall]; simpl.
  - constructor; constructor.
  - destruct (Date r <? Date r')%Z eqn:E.
    + apply Z.ltb_lt in E. constructor; [constructor; assumption|].
      constructor; [unfold by_date; lia|].
      eapply Forall_impl; [|exact Hall]. unfold by_date. intros; lia.
    + apply Z.ltb_ge in E. constructor; [assumption|].
      apply (Permutation_Forall (Permutation_sym (insert_row_perm r rows))).
      constructor; [exact E|assumption].
Qed.

Lemma sort_index_sorted data : StronglySorted by_date (Pd.sort_index data).
Proof.
  unfold Pd.sort_index.
  enough (H : forall acc, StronglySorted by_date acc ->
             StronglySorted by_date
               (fold_left (fun s r => Pd.insert_row r s) data acc)).
  { apply H. constructor. }
  induction data as [|r data IH]; intros acc Hacc; simpl; [assumption|].
  apply IH, insert_row_sorted, Hacc.
Qed.

(** Rows of distinct dates have one chronological order. *)
Lemma sorted_unique l1 : forall l2,
  StronglySorted by_date l1 -> StronglySorted by_date l2 ->
  Permutation l1 l2 -> NoDup (map Date l1) -> l1 = l2.
Proof.
  induction l1 as [|a t1 IH]; intros l2 H1 H2 Hp Hn.
  - apply Permutation_nil in Hp. congruence.
  - destruct l2 as [|b t2];
      [apply Permutation_sym, Permutation_nil in Hp; discriminate|].
    inversion H1 as [|? ? Hs1 Ha]; subst.
    inversion H2 as [|? ? Hs2 Hb]; subst.
    simpl in Hn. inversion Hn as [|? ? Hnotin Hn']; subst.
    assert (E : a = b).
    { assert (Hb1 : In b (a :: t1))
        by (apply (Permutation_in b (Permutation_sym Hp)); left; reflexivity).
      destruct Hb1 as [E|Hb1]; [exact E|].
      assert (Ha2 : In a (b :: t2))
        by (apply (Permutation_in a Hp); left; reflexivity).
      destruct Ha2 as [E|Ha2]; [symmetry; exact E|].
      exfalso. apply Hnotin.
      rewrite Forall_forall in Ha, Hb.
      pose proof (Ha b Hb1) as Hab. pose proof (Hb a Ha2) as Hba.
      unfold by_date in *.
      replace (Date a) with (Date b) by lia. apply in_map, Hb1. }
    subst b. f_equal. apply IH; try assumption.
    apply (Permutation_cons_inv Hp).
Qed.

Lemma sort_index_order_free d1 d2 :
  Permutation d1 d2 -> NoDup (map Date d1) ->
  Pd.sort_index d1 = Pd.sort_index d2.
Proof.
  intros Hp Hn. apply sorted_unique; try apply sort_index_sorted.
  - rewrite !sort_index_perm. exact Hp.
  - apply (Permutation_NoDup
             (Permutation_map Date (Permutation_sym (sort_index_perm d1)))).
    exact Hn.
Qed.

End RowOrder.

(** X13.  The scorer reads the history in the order of its dates: two
    answers of the provider with the same rows of distinct dates, in
    whatever order, give the same record and the same log. *)
Theorem row_order_irrelevant (math_exp : float -> float)
    (yf1 yf2 : string -> result TickerObj) (ticker : string)
    (i : result TickerInfo) (d1 d2 : list row) :
  yf1 ticker = Ok {| info := i; history := Ok d1 |} ->
  yf2 ticker = Ok {| info := i; history := Ok d2 |} ->
  Permutation d1 d2 -> NoDup (map Date d1) ->
  fetch_stock_data math_exp yf1 ticker = fetch_stock_data math_exp yf2 ticker.
Proof.
  intros H1 H2 Hp Hn. unfold fetch_stock_data, fetch_stock_data_try.
  rewrite H1, H2, !bind_lift_Ok. cbn [info history].
  destruct i as [i|e]; [|reflexivity].
  rewrite !bind_lift_Ok, (Permutation_length Hp),
    (sort_index_order_free Hp Hn).
  reflexivity.
Qed.

Lemma rows_of_dates closes :
  map Date (rows_of closes) = map Z.of_nat (seq 0 (length closes)).
Proof.
  unfold rows_of. rewrite map_map. cbn [Date]. generalize 0%nat.
  induction closes as [|c closes IH]; intros a; [reflexivity|].
  simpl. f_equal. apply IH.
Qed.

Lemma rows_of_NoDup closes : NoDup (map Date (rows_of closes)).
Proof.
  rewrite rows_of_dates.
  apply Finite.Injective_map_NoDup; [|apply seq_NoDup].
  intros a b. apply Nat2Z.inj.
Qed.

Lemma row_order_irrelevant_witness :
  Permutation (rows_of flat_closes) (rev (rows_of flat_closes)) /\
  NoDup (map Date (rows_of flat_closes)) /\
  fetch_stock_data exp_step (yf_rows (Ok unnamed) (rows_of flat_closes)) "KDP"
  = fetch_stock_data exp_step
      (yf_rows (Ok unnamed) (rev (rows_of flat_closes))) "KDP".
Proof.
  split; [apply Permutation_rev|]. split; [apply rows_of_NoDup|].
  exact (@row_order_irrelevant exp_step
           (yf_rows (Ok unnamed) (rows_of flat_closes))
           (yf_rows (Ok unnamed) (rev (rows_of flat_closes))) "KDP"
           (Ok unnamed) _ _ eq_refl eq_refl
           (Permutation_rev _) (rows_of_NoDup flat_closes)).
Defined.

(** ** Division of a value by itself, and of positive values *)

Section Division.

Lemma SFdiv_core_self m e :
  SFdiv_core_binary prec emax (Z.pos m) e (Z.pos m) e
  = (9007199254740992, -53, loc_Exact)%Z.
Proof.
  unfold SFdiv_core_binary.
  replace (Zdigits2 (Z.pos m) + e - (Zdigits2 (Z.pos m) + e))%Z with 0%Z
    by lia.
  rewrite Z.sub_diag.
  change (Z.min (fexp prec emax 0) 0) with (-53)%Z.
  change (0 - -53)%Z with 53%Z. cbv iota.
  rewrite Z.shiftl_mul_pow2 by lia.
  pose proof (Z.div_mul (2 ^ 53) (Z.pos m) ltac:(lia)) as Hq.
  pose proof (Z.mod_mul (2 ^ 53) (Z.pos m) ltac:(lia)) as Hr.
  rewrite (Z.mul_comm (Z.pos m)).
  unfold Z.div, Z.modulo in Hq, Hr.
  destruct (Z.div_eucl (2 ^ 53 * Z.pos m) (Z.pos m)) as [q r].
  subst q r. unfold new_location.
  destruct (Z.even (Z.pos m)); reflexivity.
Qed.

Lemma SFdiv_self s m e :
  SF64div (S754_finite s m e) (S754_finite s m e) = Prim2SF 1.
Proof.
  unfold SF64div, SFdiv. rewrite SFdiv_core_self, xorb_nilpotent.
  reflexivity.
Qed.

(** A finite value above zero divided by itself is exactly 1. *)
Lemma div_self x :
  (0 <? x) = true -> (x <? infinity) = true -> x / x = 1.
Proof.
  rewrite ltb_zero_positive, (ltb_spec x). intros Hp Hf.
  apply Prim2SF_inj. rewrite div_spec.
  change (Prim2SF infinity) with (S754_infinity false) in Hf.
  destruct (Prim2SF x) as [s|s| |s m e]; try contradiction;
    [destruct s; [contradiction|discriminate Hf]|].
  apply SFdiv_self.
Qed.

Lemma SFdiv_positive x y :
  SFpositive x -> SFpositive y -> SFnot_negative (SF64div x y).
Proof.
  destruct x as [sx|sx| |sx mx ex], y as [sy|sy| |sy my ey]; simpl;
    try contradiction; destruct sx; try contradiction;
    destruct sy; try contradiction; intros _ _; try exact I;
    try reflexivity.
  pose proof (SFdiv_core_nonneg mx ex my ey) as Hq.
  destruct (SFdiv_core_binary _ _ _ _ _ _) as [[mz ez] lz]. simpl in Hq.
  apply SFsigned_not_negative, binary_round_aux_signed, Hq.
Qed.

Lemma div_positive x y :
  (0 <? x) = true -> (0 <? y) = true -> (x / y <? 0) = false.
Proof.
  rewrite !ltb_zero_positive. intros Hx Hy.
  apply ltb_zero_false_iff. rewrite div_spec.
  apply SFdiv_positive; assumption.
Qed.

End Division.

(** ** More on the allocator *)

Section AllocatorEdges.

Variable monthly_capital : float.

Lemma filter_idem {A} (f : A -> bool) l : filter f (filter f l) = filter f l.
Proof.
  induction l as [|a l IH]; simpl; [reflexivity|].
  destruct (f a) eqn:E; simpl; [rewrite E, IH|]; auto.
Qed.

(** On a list that is not empty the allocator returns the rows of the
    records with [Score > 0] and logs nothing. *)
Lemma allocate_investment_nonempty data :
  data <> [] ->
  let df := filter (fun r => 0 <? Score r) data in
  allocate_investment data monthly_capital =
  (Ok (map (allocation_row (Np.sum (map Score df)) monthly_capital) df), []).
Proof.
  intros Hne df.
  destruct df as [|r0 df'] eqn:Edf.
  - unfold allocate_investment.
    rewrite Score_column_nonempty, bind_lift_Ok by assumption.
    cbn [DataFrame.rows DataFrame.of_records]. fold df. rewrite Edf.
    reflexivity.
  - assert (Htotal : (0 <? Np.sum (map Score df)) = true).
    { apply sum_positive; [rewrite Edf; discriminate|].
      apply filter_positive_scores. }
    unfold allocate_investment.
    rewrite Score_column_nonempty, bind_lift_Ok by assumption.
    cbn [DataFrame.rows DataFrame.of_records]. fold df.
    rewrite (ltb_true_leb_false Htotal). rewrite Edf. reflexivity.
Qed.

(** X15.  The allocator raises exactly on the empty list. *)
Theorem allocate_investment_raises_iff data :
  (exists e l, allocate_investment data monthly_capital = (Raise e, l)) <->
  data = [].
Proof.
  split.
  - intros (e & l & H). destruct data as [|r data]; [reflexivity|].
    rewrite allocate_investment_nonempty in H by discriminate.
    discriminate.
  - intros ->. eexists. eexists. reflexivity.
Qed.

(** X16.  The allocator never logs: the branch for a total at or below
    zero cannot be reached, since the scores summed are all above
    zero. *)
Theorem allocate_investment_never_logs data :
  snd (allocate_investment data monthly_capital) = [].
Proof.
  destruct data as [|r data]; [reflexivity|].
  rewrite allocate_investment_nonempty by discriminate. reflexivity.
Qed.

(** X17.  On a list that is not empty the allocator returns one row
    per record with [Score > 0], in the order of the input; records
    with a zero, negative or NaN score get no row; and no percentage
    is below zero. *)
Theorem allocate_investment_selects data :
  data <> [] ->
  exists out,
    allocate_investment data monthly_capital = (Ok out, []) /\
    map Source out = filter (fun r => 0 <? Score r) data /\
    Forall (fun a => (AllocationPct a <? 0) = false) out.
Proof.
  intros Hne. rewrite allocate_investment_nonempty by assumption.
  eexists. split; [reflexivity|]. split.
  - rewrite map_map. cbn [Source allocation_row]. apply map_id.
  - apply Forall_forall. intros a Ha.
    apply in_map_iff in Ha as (r & <- & Hr). cbn [AllocationPct allocation_row].
    pose proof Hr as Hr'. apply filter_In in Hr' as [_ Hpos].
    apply div_positive; [assumption|].
    apply sum_positive.
    + intros E. apply map_eq_nil in E. rewrite E in Hr. exact Hr.
    + apply filter_positive_scores.
Qed.

(** X18.  Records without a positive score do not influence the
    allocation: dropping them from the input leaves the output as it
    is, as long as a record remains. *)
Theorem allocate_investment_ignores_rest data :
  Exists (fun r => (0 <? Score r) = true) data ->
  allocate_investment (filter (fun r => 0 <? Score r) data) monthly_capital
  = allocate_investment data monthly_capital.
Proof.
  intros H. pose proof (filter_positive_nonempty H) as Hdf.
  rewrite (@allocate_investment_nonempty data).
  2:{ intros ->. inversion H. }
  rewrite allocate_investment_nonempty by assumption.
  cbv zeta. rewrite filter_idem. reflexivity.
Qed.

(** X19.  A single record with a positive, finite score takes the
    whole: its percentage is exactly 1.0. *)
Theorem allocate_investment_single data r :
  filter (fun r => 0 <? Score r) data = [r] ->
  (Score r <? infinity) = true ->
  allocate_investment data monthly_capital =
  (Ok [ {| Source := r; AllocationPct := 1;
           AllocationPLN := Np.round2 (1 * monthly_capital) |} ], []).
Proof.
  intros Hf Hfin.
  assert (Hpos : (0 <? Score r) = true).
  { assert (Hin : In r (filter (fun r => 0 <? Score r) data))
      by (rewrite Hf; left; reflexivity).
    apply filter_In in Hin. apply Hin. }
  rewrite allocate_investment_nonempty.
  2:{ intros ->. discriminate Hf. }
  cbv zeta. rewrite Hf. unfold Np.sum. simpl.
  unfold allocation_row. rewrite (add_zero_positive Hpos).
  rewrite (div_self Hpos Hfin). reflexivity.
Qed.

End AllocatorEdges.

Lemma allocate_investment_selects_witness :
  [scored "A" 2; scored "B" nan; scored "C" 1] <> [] /\
  exists out,
    allocate_investment [scored "A" 2; scored "B" nan; scored "C" 1] 300
    = (Ok out, []) /\
    map Source out = [scored "A" 2; scored "C" 1] /\
    Forall (fun a => (AllocationPct a <? 0) = false) out.
Proof.
  split; [discriminate|].
  exact (@allocate_investment_selects 300
           [scored "A" 2; scored "B" nan; scored "C" 1]
           ltac:(discriminate)).
Defined.

Lemma allocate_investment_ignores_rest_witness :
  Exists (fun r => (0 <? Score r) = true)
         [scored "A" 2; scored "B" 0; scored "C" 1] /\
  allocate_investment [scored "A" 2; scored "C" 1] 300
  = allocate_investment [scored "A" 2; scored "B" 0; scored "C" 1] 300.
Proof.
  assert (H : Exists (fun r => (0 <? Score r) = true)
                     [scored "A" 2; scored "B" 0; scored "C" 1])
    by (apply Exists_cons_hd; reflexivity).
  split; [exact H|].
  exact (@allocate_investment_ignores_rest 300 _ H).
Defined.

Lemma allocate_investment_single_witness :
  filter (fun r => 0 <? Score r) [scored "A" 0; scored "B" 0.7]
  = [scored "B" 0.7] /\
  (Score (scored "B" 0.7) <? infinity) = true /\
  allocate_investment [scored "A" 0; scored "B" 0.7] 3000 =
  (Ok [ {| Source := scored "B" 0.7; AllocationPct := 1;
           AllocationPLN := 3000 |} ], []).
Proof.
  split; [reflexivity|]. split; [reflexivity|].
  exact (@allocate_investment_single 3000 [scored "A" 0; scored "B" 0.7]
           (scored "B" 0.7) eq_refl eq_refl).
Defined.

(** ** [fetch_all_data] *)

Section FetchAll.

Variable math_exp : float -> float.
Variable yf_Ticker : string -> result TickerObj.

Lemma executor_map_total {A B} (f : A -> M B) (xs : list A) :
  (forall x, exists y l, f x = (Ok y, l)) ->
  exists ys l,
    executor_map f xs = (Ok ys, l) /\
    Forall2 (fun x y => exists l', f x = (Ok y, l')) xs ys.
Proof.
  intros Hf. induction xs as [|x xs (ys & l & E & H)]; simpl.
  - exists [], []. split; [reflexivity|constructor].
  - destruct (Hf x) as (y & l0 & Ey).
    exists (y :: ys), (l0 ++ l ++ []). split.
    + rewrite Ey. unfold bind at 1. rewrite E. reflexivity.
    + constructor; [eauto|assumption].
Qed.

Lemma fetch_stock_data_returns ticker :
  exists r l, fetch_stock_data math_exp yf_Ticker ticker = (Ok r, l).
Proof.
  destruct (fetch_stock_data_cases math_exp yf_Ticker ticker)
    as [(r & l & _ & Hf)|(e & l & _ & Hf)]; eauto.
Qed.

Lemma fetch_stock_data_Ok_Ticker ticker r l :
  fetch_stock_data math_exp yf_Ticker ticker = (Ok r, l) -> Ticker r = ticker.
Proof.
  intros Hf.
  destruct (fetch_stock_data_cases math_exp yf_Ticker ticker)
    as [(r' & l' & Htry & Hf')|(e & l' & Htry & Hf')];
    rewrite Hf in Hf'; injection Hf' as -> ->; [|reflexivity].
  apply fetch_stock_data_try_Ok in Htry as (c & cp & ma & s & H).
  apply (f_equal fst) in H. cbn [fst] in H. subst r'.
  rewrite validate_result_fst. reflexivity.
Qed.

Lemma fetch_all_data_results tickers :
  exists data l,
    fetch_all_data math_exp yf_Ticker tickers = (Ok data, l) /\
    Forall2 (fun t r =>
               exists l', fetch_stock_data math_exp yf_Ticker t = (Ok r, l'))
            tickers data.
Proof. apply executor_map_total, fetch_stock_data_returns. Qed.

(** X20.  [fetch_all_data] never raises and returns one record per
    ticker, in the order of the tickers: the record at each position is
    what [fetch_stock_data] returns for the ticker at that position,
    and carries that ticker. *)
Theorem fetch_all_data_in_order tickers :
  exists data l,
    fetch_all_data math_exp yf_Ticker tickers = (Ok data, l) /\
    map Ticker data = tickers /\
    Forall2 (fun t r =>
               exists l', fetch_stock_data math_exp yf_Ticker t = (Ok r, l'))
            tickers data.
Proof.
  destruct (fetch_all_data_results tickers) as (data & l & E & H).
  exists data, l. split; [assumption|]. split; [|assumption].
  clear E. induction H as [|t r ts rs (l' & Hr) _ IH]; [reflexivity|].
  simpl. rewrite IH, (fetch_stock_data_Ok_Ticker _ Hr). reflexivity.
Qed.

Lemma Forall2_In_r {A B} (P : A -> B -> Prop) xs ys y :
  Forall2 P xs ys -> In y ys -> exists x, In x xs /\ P x y.
Proof.
  induction 1 as [|x0 y0 xs ys H0 _ IH]; intros Hin; [contradiction|].
  destruct Hin as [<-|Hin].
  - exists x0. split; [left; reflexivity|assumption].
  - destruct (IH Hin) as (x & Hx & HP). exists x. split; [right|]; assumption.
Qed.

(** X21.  Scoring a list of tickers that is not empty and allocating
    over the records never raises and logs nothing in the allocator;
    every record that receives an allocation was scored on the success
    path for one of the tickers and has both prices present and not at
    or below zero.  A ticker whose data could not be fetched receives
    nothing. *)
Theorem pipeline_allocates_scored tickers monthly_capital :
  tickers <> [] ->
  exists data l out,
    fetch_all_data math_exp yf_Ticker tickers = (Ok data, l) /\
    allocate_investment data monthly_capital = (Ok out, []) /\
    Forall (fun a =>
              In (Ticker (Source a)) tickers /\
              (exists l',
                 fetch_stock_data_try math_exp yf_Ticker (Ticker (Source a))
                 = (Ok (Source a), l')) /\
              exists cp ma50,
                CurrentPrice (Source a) = Some cp /\
                MA50 (Source a) = Some ma50 /\
                (cp <=? 0) = false /\ (ma50 <=? 0) = false)
           out.
Proof.
  intros Hne.
  destruct (fetch_all_data_results tickers) as (data & l & E & H).
  assert (Hd : data <> []).
  { intros ->. inversion H; subst. congruence. }
  exists data, l. eexists. split; [exact E|].
  split; [apply allocate_investment_nonempty, Hd|].
  apply Forall_forall. intros a Ha.
  apply in_map_iff in Ha as (r & <- & Hr). cbn [Source allocation_row].
  apply filter_In in Hr as [Hin Hpos].
  destruct (@Forall2_In_r _ _ _ _ _ _ H Hin) as (t & Ht & l' & Hf).
  pose proof (fetch_stock_data_Ok_Ticker _ Hf) as Etk.
  rewrite Etk. split; [assumption|].
  destruct (fetch_stock_data_cases math_exp yf_Ticker t)
    as [(r' & l1 & Htry & Hf')|(e & l1 & Htry & Hf')];
    rewrite Hf in Hf'; injection Hf' as Er El; subst r.
  - split; [eauto|].
    apply fetch_stock_data_try_Ok in Htry as (c & cp & ma & s & Hv).
    apply (f_equal fst) in Hv. cbn [fst] in Hv. subst r'.
    rewrite validate_result_fst in *.
    cbn [CurrentPrice MA50 Score assemble] in *.
    exists cp, ma. split; [reflexivity|]. split; [reflexivity|].
    unfold checked_score, Py.none_or_nonpositive in Hpos.
    destruct ((cp <=? 0) || (ma <=? 0)) eqn:E0; [discriminate Hpos|].
    apply orb_false_iff in E0. exact E0.
  - discriminate Hpos.
Qed.

End FetchAll.

Lemma pipeline_allocates_scored_witness :
  tickers <> [] /\
  exists data l out,
    fetch_all_data exp_step (yf_history flat_closes) tickers = (Ok data, l) /\
    allocate_investment data 3000 = (Ok out, []) /\
    Forall (fun a =>
              In (Ticker (Source a)) tickers /\
              (exists l',
                 fetch_stock_data_try exp_step (yf_history flat_closes)
                   (Ticker (Source a))
                 = (Ok (Source a), l')) /\
              exists cp ma50,
                CurrentPrice (Source a) = Some cp /\
                MA50 (Source a) = Some ma50 /\
                (cp <=? 0) = false /\ (ma50 <=? 0) = false)
           out.
Proof.
  split; [discriminate|].
  exact (@pipeline_allocates_scored exp_step (yf_history flat_closes)
           tickers 3000 ltac:(discriminate)).
Defined.

(** ** The driver *)

Section IOLaws.

Context {A B : Type}.

Lemma io_bind_Ok (a : A) l (f : A -> IO B) :
  io_bind (Ok a, l) f = (fst (f a), l ++ snd (f a)).
Proof. unfold io_bind. destruct (f a). reflexivity. Qed.

End IOLaws.

Lemma outputs_app l l' : outputs (l ++ l') = outputs l ++ outputs l'.
Proof. unfold outputs. apply flat_map_app. Qed.

Lemma outputs_Logged l : outputs (map Logged l) = [].
Proof. induction l as [|e l IH]; [reflexivity|exact IH]. Qed.

Lemma read_capital_cases (args_capital : option float)
    (typed : result float) :
  exists c,
    (c <=? 0) = false /\
    ((read_capital args_capital typed = (Ok c, prompted args_capital) /\
      (args_capital = Some c \/ (args_capital = None /\ typed = Ok c))) \/
     (c = 3000 /\
      exists e,
        read_capital args_capital typed
        = (Ok 3000, prompted args_capital ++ [LoggedCapital e]))).
Proof.
  destruct args_capital as [c|]; [|destruct typed as [c|e]];
    cbv [read_capital io_try io_bind io_ret io_raise print io_lift
         prompted app];
    try (destruct (c <=? 0) eqn:E).
  - exists 3000. split; [reflexivity|]. right. split; [reflexivity|].
    eexists. reflexivity.
  - exists c. split; [assumption|]. left. split; [reflexivity|].
    left. reflexivity.
  - exists 3000. split; [reflexivity|]. right. split; [reflexivity|].
    eexists. reflexivity.
  - exists c. split; [assumption|]. left. split; [reflexivity|].
    right. split; reflexivity.
  - exists 3000. split; [reflexivity|]. right. split; [reflexivity|].
    exists e. reflexivity.
Qed.

(** X22.  Reading the capital never raises and never gives a value at
    or below zero.  Either the value from the command line, or without
    one the value typed at the prompt, is used as it is and nothing is
    logged; or reading raised or gave a value at or below zero, one
    entry is logged and 3000.0 is used.  The prompt is written only
    when the command line gives no capital. *)
Theorem read_capital_safe (args_capital : option float)
    (typed : result float) :
  exists c,
    (c <=? 0) = false /\
    ((read_capital args_capital typed = (Ok c, prompted args_capital) /\
      (args_capital = Some c \/ (args_capital = None /\ typed = Ok c))) \/
     (c = 3000 /\
      exists e,
        read_capital args_capital typed
        = (Ok 3000, prompted args_capital ++ [LoggedCapital e]))).
Proof. apply read_capital_cases. Qed.

Section DriverFacts.

Variable math_exp : float -> float.
Variable yf_Ticker : string -> result TickerObj.
Variable sort_values : list ScoreResult -> list ScoreResult.
Variable now : string.

Lemma read_capital_Ok args_capital typed :
  exists c evs,
    read_capital args_capital typed = (Ok c, evs) /\
    outputs evs = outputs (prompted args_capital).
Proof.
  destruct (read_capital_cases args_capital typed)
    as (c & _ & [[E _]|[_ [e E]]]).
  - exists c. eexists. split; [exact E|reflexivity].
  - exists 3000. eexists. split; [exact E|].
    rewrite outputs_app. apply app_nil_r.
Qed.

Lemma io_prefix (X : IO unit) l T :
  X = (Ok tt, T) -> (fst X, l ++ snd X) = (Ok tt, l ++ T).
Proof. intros ->. reflexivity. Qed.

(** The events of [main]: those of reading the capital, the line that
    announces the fetching, the log of the scoring, and the report.
    The allocator is never called on a list it raises on, and never
    returns an empty list to [main]. *)
Lemma main_events args_capital typed c evs0 data l :
  read_capital args_capital typed = (Ok c, evs0) ->
  fetch_all_data math_exp yf_Ticker tickers = (Ok data, l) ->
  main math_exp yf_Ticker sort_values now args_capital typed
  = (Ok tt,
     evs0 ++ [Printed (Print msg_fetching)] ++ map Logged l ++
     map Printed (report sort_values now c data)).
Proof.
  intros Ec Ed.
  assert (Hd : data <> []).
  { destruct (fetch_all_data_results math_exp yf_Ticker tickers)
      as (data' & l' & Ed' & H).
    rewrite Ed in Ed'. injection Ed' as <- <-. intros ->. inversion H. }
  unfold main. rewrite Ec, io_bind_Ok. cbv beta. apply io_prefix.
  unfold print at 1. rewrite io_bind_Ok. cbv beta. apply io_prefix.
  unfold run at 1. rewrite Ed. cbn [fst snd].
  rewrite io_bind_Ok. cbv beta. apply io_prefix.
  replace (length data =? 0)%nat with false
    by (symmetry; apply Nat.eqb_neq; intros E0;
        apply length_zero_iff_nil in E0; contradiction).
  cbn [orb]. unfold report.
  destruct (forallb (fun item => Score item =? 0) data); [reflexivity|].
  rewrite Score_column_nonempty by assumption.
  cbn [DataFrame.rows DataFrame.of_records].
  pose proof (allocate_investment_nonempty c Hd) as Ea. cbv zeta in Ea.
  destruct (filter (fun r => 0 <? Score r) data) as [|r0 df'].
  - cbn [length Nat.eqb map].
    unfold print at 1. rewrite io_bind_Ok. cbv beta.
    apply (@io_prefix _ [Printed (Print msg_scores)]).
    unfold io_lift. rewrite io_bind_Ok. cbv beta.
    apply (@io_prefix _ []).
    unfold print at 1. rewrite io_bind_Ok. cbv beta.
    apply (@io_prefix _ [Printed (Print msg_no_candidate)]).
    reflexivity.
  - cbn [length Nat.eqb]. cbn [map] in Ea |- *.
    unfold print, io_lift, run, io_bind. rewrite Ea. reflexivity.
Qed.

Lemma main_outputs args_capital typed :
  exists c data l,
    fetch_all_data math_exp yf_Ticker tickers = (Ok data, l) /\
    Forall2 (fun t r =>
               exists l', fetch_stock_data math_exp yf_Ticker t = (Ok r, l'))
            tickers data /\
    fst (main math_exp yf_Ticker sort_values now args_capital typed) = Ok tt /\
    outputs (snd (main math_exp yf_Ticker sort_values now args_capital typed))
    = outputs (prompted args_capital) ++
      Print msg_fetching :: report sort_values now c data.
Proof.
  destruct (read_capital_Ok args_capital typed) as (c & evs0 & Ec & Eo).
  destruct (fetch_all_data_results math_exp yf_Ticker tickers)
    as (data & l & Ed & H).
  exists c, data, l. split; [exact Ed|]. split; [exact H|].
  rewrite (@main_events _ _ _ _ _ _ Ec Ed). split; [reflexivity|].
  cbn [snd]. rewrite !outputs_app, outputs_Logged, Eo. cbn [app].
  f_equal. cbn. f_equal.
  induction (report sort_values now c data) as [|o os IH];
    [reflexivity|]. cbn. f_equal. exact IH.
Qed.

Lemma prompted_outputs args_capital o :
  In o (outputs (prompted args_capital)) -> exists text, o = Prompt text.
Proof.
  destruct args_capital; simpl; [contradiction|].
  intros [<-|[]]. eexists. reflexivity.
Qed.


(** X24.  The notice that no score above zero is left to allocate is
    never written: whenever [main] calls the allocator, a record with
    a score above zero exists and the allocator returns its row. *)
Theorem main_never_without_allocation args_capital typed :
  ~ In (Print msg_no_allocation)
       (outputs
          (snd (main math_exp yf_Ticker sort_values now args_capital typed))).
Proof.
  destruct (main_outputs args_capital typed)
    as (c & data & l & _ & _ & _ & ->).
  intros Hin. apply in_app_or in Hin as [Hin|Hin].
  - apply prompted_outputs in Hin as [text Hin]. discriminate Hin.
  - unfold report in Hin.
    destruct (forallb _ data);
      [|destruct (filter (fun r => 0 <? Score r) data)];
      simpl in Hin; intuition (try discriminate);
      match goal with H : Print _ = Print _ |- _ =>
        injection H as H; vm_compute in H; discriminate H end.
Qed.

(** X26.  When every fetch fails, [main] writes the line that
    announces the fetching and the notice that no data is there, and
    stops there: no table and no time. *)
Theorem main_all_failed args_capital typed :
  (forall t, In t tickers ->
     exists e l, fetch_stock_data_try math_exp yf_Ticker t = (Raise e, l)) ->
  outputs (snd (main math_exp yf_Ticker sort_values now args_capital typed))
  = outputs (prompted args_capital) ++ [Print msg_fetching; Print msg_no_data].
Proof.
  intros Hfail.
  destruct (main_outputs args_capital typed)
    as (c & data & l & _ & H & _ & ->).
  f_equal. f_equal. unfold report.
  replace (forallb (fun item => Score item =? 0) data) with true;
    [reflexivity|].
  symmetry. apply forallb_forall. intros r Hin.
  destruct (@Forall2_In_r _ _ _ _ _ _ H Hin) as (t & Ht & l' & Hf).
  destruct (Hfail t Ht) as (e & l0 & Htry).
  rewrite (fetch_stock_data_failure math_exp yf_Ticker t Htry) in Hf.
  injection Hf as <- _. reflexivity.
Qed.

(** The one fact about [math.exp] that the sign of the score rests on. *)
Hypothesis exp_not_negative : forall x, (math_exp x <? 0) = false.

Lemma fetch_stock_data_Ok_Score_ge_zero ticker r l :
  fetch_stock_data math_exp yf_Ticker ticker = (Ok r, l) ->
  (0 <=? Score r) = true.
Proof.
  intros Hf.
  destruct (fetch_stock_data_cases math_exp yf_Ticker ticker)
    as [(r' & l' & Htry & Hf')|(e & l' & Htry & Hf')];
    rewrite Hf in Hf'; injection Hf' as Er El; subst r; [|reflexivity].
  apply fetch_stock_data_try_Ok in Htry as (c & cp & ma & s & H).
  apply (f_equal fst) in H. cbn [fst] in H. subst r'.
  rewrite validate_result_fst. cbn [Score CurrentPrice MA50 assemble].
  destruct (checked_score_finite (Some cp) (Some ma)
              (flatness_of s * proximity_of math_exp (distance cp ma)
               * bonus_of (distance cp ma))) as [Hn _].
  apply not_ltb_leb; [assumption|reflexivity|].
  unfold checked_score.
  destruct (Py.none_or_nonpositive (Some cp) (Some ma)); [reflexivity|].
  destruct (Py.isnan _ || Py.isinf _); [reflexivity|].
  apply (raw_score_not_negative math_exp exp_not_negative).
Qed.

(** X25.  Given that [math.exp] never returns a value below zero, the
    notice that no ticker meets the criterion is never written either:
    a score that is not zero is above zero, so past the check for data
    the table of scores and the allocation are always written. *)
Theorem main_never_without_candidate args_capital typed :
  ~ In (Print msg_no_candidate)
       (outputs
          (snd (main math_exp yf_Ticker sort_values now args_capital typed))).
Proof.
  destruct (main_outputs args_capital typed)
    as (c & data & l & _ & H & _ & ->).
  intros Hin. apply in_app_or in Hin as [Hin|Hin].
  { apply prompted_outputs in Hin as [text Hin]. discriminate Hin. }
  unfold report in Hin.
  destruct (forallb (fun item => Score item =? 0) data) eqn:Ez.
  { simpl in Hin. intuition (try discriminate);
      match goal with H : Print _ = Print _ |- _ =>
        injection H as H; vm_compute in H; discriminate H end. }
  assert (Hex : exists r, In r data /\ (0 <? Score r) = true).
  { destruct (existsb (fun item => negb (Score item =? 0)) data) eqn:Ee.
    - apply existsb_exists in Ee as (r & Hr & Hnz).
      exists r. split; [assumption|].
      destruct (@Forall2_In_r _ _ _ _ _ _ H Hr) as (t & _ & l' & Hf).
      apply negb_true_iff in Hnz.
      apply leb_not_eqb_ltb;
        [apply (fetch_stock_data_Ok_Score_ge_zero _ Hf)|assumption].
    - exfalso. rewrite <- Ez in Ee. clear -Ee.
      induction data as [|r data IH]; [discriminate Ee|].
      simpl in Ee. destruct (Score r =? 0); simpl in Ee;
        [apply IH, Ee|discriminate Ee]. }
  destruct Hex as (r & Hr & Hpos).
  assert (Hf : In r (filter (fun r => 0 <? Score r) data))
    by (apply filter_In; split; assumption).
  destruct (filter (fun r => 0 <? Score r) data); [contradiction|].
  simpl in Hin. intuition (try discriminate);
    match goal with H : Print _ = Print _ |- _ =>
      injection H as H; vm_compute in H; discriminate H end.
Qed.

End DriverFacts.

Lemma main_all_failed_witness :
  (forall t, In t tickers ->
     exists e l, fetch_stock_data_try exp_step yf_down t = (Raise e, l)) /\
  outputs (snd (main exp_step yf_down unsorted "2025-01-01 12:00:00"
                     (Some 1072.32) (Raise IndexError)))
  = [Print msg_fetching; Print msg_no_data].
Proof.
  assert (H : forall t, In t tickers ->
                exists e l,
                  fetch_stock_data_try exp_step yf_down t = (Raise e, l)).
  { intros t _. eexists. eexists. reflexivity. }
  split; [exact H|].
  exact (@main_all_failed exp_step yf_down unsorted "2025-01-01 12:00:00"
           (Some 1072.32) (Raise IndexError) H).
Defined.

Lemma main_never_without_candidate_witness :
  (forall x, (exp_step x <? 0) = false) /\
  ~ In (Print msg_no_candidate)
       (outputs
          (snd (main exp_step (yf_history rising_closes) unsorted
                     "2025-01-01 12:00:00" None (Ok 0)))).
Proof.
  split; [exact exp_step_not_negative|].
  exact (@main_never_without_candidate exp_step (yf_history rising_closes)
           unsorted "2025-01-01 12:00:00" exp_step_not_negative None (Ok 0)).
Defined.

(** A run of [main] on the rising closes, with 0 typed at the prompt:
    the capital falls back to 3000.0 and is split evenly over the eight
    tickers, 375.0 each. *)
Example main_on_rising_closes :
  exists rows allocation,
    outputs (snd (main exp_step (yf_history rising_closes) unsorted
                       "2025-01-01 12:00:00" None (Ok 0)))
    = [Prompt "Podaj miesięczną kwotę inwestycji (np. 1072.32): ";
       Print msg_fetching; Print msg_scores; PrintScores rows;
       Print msg_allocation; PrintAllocation allocation;
       Print (msg_time "2025-01-01 12:00:00")] /\
    map Ticker rows = tickers /\
    map AllocationPLN allocation = repeat 375 8.
Proof.
  eexists. eexists. split; [vm_compute; reflexivity|].
  split; reflexivity.
Qed.

